(** * manvfat-calendar: fixtures scraped from a league page, exported as a calendar

    A shallow embedding of [src/main.py]: the classes [MatchFixture],
    [ManVFatConnector], [ManVFatCalender] and [ManVFatCalendarExporter], together
    with the parts of the libraries they call that decide their behaviour
    (BeautifulSoup's tree search, [datetime], [_strptime], [icalendar]'s
    property dictionaries).

    Text is a [string] whose characters are read as code points below 256.
    Python exceptions are the constructors of [exn]; a computation that may
    raise returns a [result]. *)

From Stdlib Require Import ZArith Ascii String List Lia DecimalString.
From stdpp Require Import gmap strings list fin_maps.

Open Scope string_scope.

(** ** Exceptions and results *)

Inductive exn : Type :=
| AttributeError   (* attribute access on None *)
| KeyError         (* missing dictionary key *)
| ValueError       (* strptime mismatch, invalid date *)
| TypeError        (* os.path.join on None *)
| OverflowError    (* datetime arithmetic out of range *)
| HTTPError        (* raise_for_status *)
| OSError          (* file system failure *)
| ParserRejectedMarkup.  (* BeautifulSoup on markup its parser cannot handle *)

Inductive result (A : Type) : Type :=
| Ok (a : A)
| Raise (e : exn).
Arguments Ok {A} a.
Arguments Raise {A} e.

Definition bind {A B : Type} (r : result A) (k : A -> result B) : result B :=
  match r with
  | Ok a => k a
  | Raise e => Raise e
  end.

Notation "x <- r ;; k" := (bind r (fun x => k))
  (at level 100, r at next level, right associativity).

Definition is_ok {A : Type} (r : result A) : bool :=
  match r with Ok _ => true | Raise _ => false end.

(** The spec's error taxonomy names the failure of reading a field of an
    absent page element [MalformedFixtureError]; in the program it is the
    [AttributeError] of [None.string]. *)
Definition MalformedFixtureError : exn := AttributeError.

(** [str(v)] inside an f-string, for a value that is a [str] or [None]. *)
Definition py_str (v : option string) : string :=
  match v with
  | Some s => s
  | None => "None"
  end.

(** ** BeautifulSoup: the parsed tree and its search *)

Module Bs4.

(** An attribute value: a plain string, or for [class] the list of its
    whitespace-separated tokens. *)
Inductive attr_value : Type :=
| AttrStr (s : string)
| AttrList (l : list string).

#[warnings="-register-all"]
Inductive node : Type :=
| NavigableString (s : string)
| Tag (name : string) (attrs : gmap string attr_value) (contents : list node).

(** [Tag.descendants]: every node below, in document order. *)
Fixpoint descendants (n : node) : list node :=
  match n with
  | NavigableString _ => []
  | Tag _ _ cs => flat_map (fun c => c :: descendants c) cs
  end.

(** [SoupStrainer._matches] on an attribute value and a search string. *)
Definition _matches (markup : option attr_value) (match_against : string) : bool :=
  match markup with
  | None => String.eqb match_against ""
  | Some (AttrStr s) => String.eqb s match_against
  | Some (AttrList l) =>
      existsb (fun item => String.eqb item match_against) l
      || String.eqb (String.concat " " l) match_against
  end.

(** [SoupStrainer.search_tag]: the name and every searched attribute match. *)
Definition search_tag (name : string) (attrs : list (string * string)) (n : node) : bool :=
  match n with
  | NavigableString _ => false
  | Tag nm tag_attrs _ =>
      String.eqb nm name
      && forallb (fun kv => _matches (tag_attrs !! fst kv) (snd kv)) attrs
  end.

Definition find_all (name : string) (attrs : list (string * string)) (n : node) : list node :=
  List.filter (search_tag name attrs) (descendants n).

Definition find (name : string) (attrs : list (string * string)) (n : node) : option node :=
  match find_all name attrs n with
  | [] => None
  | r :: _ => Some r
  end.

(** [Tag.string]: the single string child, looked for through single
    children; [None] when a tag has no child or several. *)
Fixpoint string (n : node) : option String.string :=
  match n with
  | NavigableString s => Some s
  | Tag _ _ [c] => string c
  | Tag _ _ _ => None
  end.

End Bs4.

(** ** datetime: dates, times and their arithmetic *)

Module Datetime.
Local Open Scope Z_scope.

Record datetime : Type := mk_datetime {
  year : Z; month : Z; day : Z;
  hour : Z; minute : Z; second : Z; microsecond : Z
}.

(** A [timedelta] in normal form: [0 <= seconds < 86400] and
    [0 <= microseconds < 1000000]. *)
Record timedelta : Type := mk_timedelta {
  days : Z; seconds : Z; microseconds : Z
}.

Definition MINYEAR : Z := 1.
Definition MAXYEAR : Z := 9999.
Definition _MAXORDINAL : Z := 3652059.

Definition _DAYS_IN_MONTH : list Z :=
  [-1; 31; 28; 31; 30; 31; 30; 31; 31; 30; 31; 30; 31].
Definition _DAYS_BEFORE_MONTH : list Z :=
  [-1; 0; 31; 59; 90; 120; 151; 181; 212; 243; 273; 304; 334].

Definition index (l : list Z) (i : Z) : Z := nth (Z.to_nat i) l 0.

Definition _is_leap (y : Z) : bool :=
  (y mod 4 =? 0) && (negb (y mod 100 =? 0) || (y mod 400 =? 0)).

Definition _days_before_year (y0 : Z) : Z :=
  let y := y0 - 1 in
  y * 365 + y / 4 - y / 100 + y / 400.

Definition _days_in_month (y m : Z) : Z :=
  if (m =? 2) && _is_leap y then 29 else index _DAYS_IN_MONTH m.

Definition _days_before_month (y m : Z) : Z :=
  index _DAYS_BEFORE_MONTH m + (if (2 <? m) && _is_leap y then 1 else 0).

Definition _ymd2ord (y m d : Z) : Z :=
  _days_before_year y + _days_before_month y m + d.

Definition _DI400Y : Z := 146097.
Definition _DI100Y : Z := 36524.
Definition _DI4Y : Z := 1461.

Definition _ord2ymd (n0 : Z) : Z * Z * Z :=
  let n := n0 - 1 in
  let n400 := n / _DI400Y in
  let n := n mod _DI400Y in
  let y := n400 * 400 + 1 in
  let n100 := n / _DI100Y in
  let n := n mod _DI100Y in
  let n4 := n / _DI4Y in
  let n := n mod _DI4Y in
  let n1 := n / 365 in
  let n := n mod 365 in
  let y := y + n100 * 100 + n4 * 4 + n1 in
  if (n1 =? 4) || (n100 =? 4) then (y - 1, 12, 31)
  else
    let leapyear := (n1 =? 3) && (negb (n4 =? 24) || (n100 =? 3)) in
    let m := Z.shiftr (n + 50) 5 in
    let preceding := index _DAYS_BEFORE_MONTH m + (if (2 <? m) && leapyear then 1 else 0) in
    if n <? preceding then
      let m := m - 1 in
      let preceding :=
        preceding - (index _DAYS_IN_MONTH m + (if (m =? 2) && leapyear then 1 else 0)) in
      (y, m, n - preceding + 1)
    else (y, m, n - preceding + 1).

(** [_check_date_fields] and [_check_time_fields]. *)
Definition _check_date_fields (y m d : Z) : bool :=
  (MINYEAR <=? y) && (y <=? MAXYEAR) && (1 <=? m) && (m <=? 12)
  && (1 <=? d) && (d <=? _days_in_month y m).

Definition _check_time_fields (h mi s us : Z) : bool :=
  (0 <=? h) && (h <=? 23) && (0 <=? mi) && (mi <=? 59)
  && (0 <=? s) && (s <=? 59) && (0 <=? us) && (us <=? 999999).

(** [datetime(year, month, day, hour, minute, second, microsecond)]. *)
Definition new (y m d h mi s us : Z) : result datetime :=
  if _check_date_fields y m d && _check_time_fields h mi s us
  then Ok (mk_datetime y m d h mi s us)
  else Raise ValueError.

(** [date(year, month, day).toordinal()]; the constructor checks the fields. *)
Definition date_toordinal (y m d : Z) : result Z :=
  if _check_date_fields y m d then Ok (_ymd2ord y m d) else Raise ValueError.

Definition toordinal (dt : datetime) : Z :=
  _ymd2ord (year dt) (month dt) (day dt).

(** [weekday()]: Monday is 0, Sunday is 6. *)
Definition weekday (dt : datetime) : Z := (toordinal dt + 6) mod 7.

(** [strftime('%A')] in the C locale. *)
Definition weekday_name (dt : datetime) : string :=
  nth (Z.to_nat (weekday dt))
      ["Monday"; "Tuesday"; "Wednesday"; "Thursday"; "Friday"; "Saturday"; "Sunday"] "".

(** [timedelta(days, seconds, microseconds, minutes=, hours=)], normalised. *)
Definition timedelta_new (d s us mi h : Z) : timedelta :=
  let s := s + mi * 60 + h * 3600 in
  let s := s + us / 1000000 in
  let us := us mod 1000000 in
  mk_timedelta (d + s / 86400) (s mod 86400) us.

Definition timedelta_add (a b : timedelta) : timedelta :=
  timedelta_new (days a + days b) (seconds a + seconds b)
                (microseconds a + microseconds b) 0 0.

(** [datetime.__add__]. *)
Definition add (dt : datetime) (other : timedelta) : result datetime :=
  let delta :=
    timedelta_add
      (timedelta_new (toordinal dt) (second dt) (microsecond dt) (minute dt) (hour dt))
      other in
  let h := seconds delta / 3600 in
  let rem := seconds delta mod 3600 in
  let mi := rem / 60 in
  let s := rem mod 60 in
  if (0 <? days delta) && (days delta <=? _MAXORDINAL) then
    let '(y, m, d) := _ord2ymd (days delta) in
    Ok (mk_datetime y m d h mi s (microseconds delta))
  else Raise OverflowError.

(** Microseconds elapsed since the start of day 0 of the proleptic calendar. *)
Definition instant (dt : datetime) : Z :=
  ((toordinal dt * 24 + hour dt) * 60 + minute dt) * 60 * 1000000
  + second dt * 1000000 + microsecond dt.

(** The length of a [timedelta] in microseconds. *)
Definition total_microseconds (td : timedelta) : Z :=
  (days td * 86400 + seconds td) * 1000000 + microseconds td.

(** The month and day of the [n]-th day (from 0) of a year, as the last
    lines of [_ord2ymd] compute them, and the check that they are a month
    and a day that [_ymd2ord] maps back to [n]. *)
Definition month_day (leapyear : bool) (n : Z) : Z * Z :=
  let m := Z.shiftr (n + 50) 5 in
  let preceding := index _DAYS_BEFORE_MONTH m + (if (2 <? m) && leapyear then 1 else 0) in
  if n <? preceding then
    let m := m - 1 in
    let preceding :=
      preceding - (index _DAYS_IN_MONTH m + (if (m =? 2) && leapyear then 1 else 0)) in
    (m, n - preceding + 1)
  else (m, n - preceding + 1).

Definition month_day_ok (leapyear : bool) (n : Z) : bool :=
  let '(m, d) := month_day leapyear n in
  (1 <=? m) && (m <=? 12) && (1 <=? d)
  && (index _DAYS_BEFORE_MONTH m + (if (2 <? m) && leapyear then 1 else 0) + d =? n + 1).

(** *** strftime, for the directives of ['%m/%d/%Y %I:%M %p'] *)

Definition dec (z : Z) : string :=
  NilZero.string_of_uint (N.to_uint (Z.to_N z)).

Definition dec2 (z : Z) : string :=
  if z <? 10 then "0" ++ dec z else dec z.

(** [%I]: the hour on the 12-hour clock. *)
Definition hour12 (h : Z) : Z :=
  if h mod 12 =? 0 then 12 else h mod 12.

(** [%p] in the C locale. *)
Definition am_pm (h : Z) : string := if h <? 12 then "AM" else "PM".

(** [dt.strftime('%m/%d/%Y %I:%M %p')]; [%Y] is printed as the C library
    does for years from 1000 on, which is every year this program parses. *)
Definition strftime_mdY_IMp (dt : datetime) : string :=
  dec2 (month dt) ++ "/" ++ dec2 (day dt) ++ "/" ++ dec (year dt) ++ " "
  ++ dec2 (hour12 (hour dt)) ++ ":" ++ dec2 (minute dt) ++ " " ++ am_pm (hour dt).

End Datetime.

(** ** _strptime: the parser behind [datetime.strptime]

    The format ["%A %d %B %H:%M"] is compiled by [TimeRE.pattern] into the
    regular expression

      (?P<A>wednesday|...)\s+(?P<d>3[0-1]|[1-2]\d|0[1-9]|[1-9]| [1-9])\s+
      (?P<B>september|...)\s+(?P<H>2[0-3]|[0-1]\d|\d):(?P<M>[0-5]\d|\d)

    matched with IGNORECASE from the start of the text. A pattern is modelled
    as the list of its matches in the order backtracking tries them, so the
    head of the list is the match the engine returns. *)

Module Strptime.

Definition code (c : ascii) : N := N_of_ascii c.

Definition in_range (lo hi : string) (c : ascii) : bool :=
  match lo, hi with
  | String l _, String h _ => ((code l <=? code c) && (code c <=? code h))%N
  | _, _ => false
  end.

(** [\d] and [\s] on code points below 256. *)
Definition is_digit (c : ascii) : bool := in_range "0" "9" c.

Definition is_space (c : ascii) : bool :=
  let n := code c in
  ((9 <=? n) && (n <=? 13) || (28 <=? n) && (n <=? 32) || (n =? 133) || (n =? 160))%N.

Definition lower_char (c : ascii) : ascii :=
  if in_range "A" "Z" c then ascii_of_N (code c + 32) else c.

Fixpoint lower (s : string) : string :=
  match s with
  | EmptyString => EmptyString
  | String c r => String (lower_char c) (lower r)
  end.

(** A pattern: every way to match a prefix, with the text matched and the
    text left, in backtracking order. *)
Definition re : Type := string -> list (string * string).

(** A lower-case literal under IGNORECASE. *)
Fixpoint literal (pat : string) : re :=
  fun s =>
    match pat, s with
    | EmptyString, _ => [(EmptyString, s)]
    | String p pat', String c s' =>
        if Ascii.eqb (lower_char c) p
        then List.map (fun m => (String c (fst m), snd m)) (literal pat' s')
        else []
    | String _ _, EmptyString => []
    end.

(** A sequence of character classes. *)
Fixpoint classes (cs : list (ascii -> bool)) : re :=
  fun s =>
    match cs, s with
    | [], _ => [(EmptyString, s)]
    | p :: cs', String c s' =>
        if p c
        then List.map (fun m => (String c (fst m), snd m)) (classes cs' s')
        else []
    | _ :: _, EmptyString => []
    end.

(** [r1|r2|...]: the alternatives in order. *)
Definition alt (rs : list re) : re :=
  fun s => flat_map (fun r => r s) rs.

(** [\s+], greedy: the longest run first, then shorter ones down to one. *)
Fixpoint spaces (s : string) : list (string * string) :=
  match s with
  | String c s' =>
      if is_space c
      then List.map (fun m => (String c (fst m), snd m)) (spaces s') ++ [(String c EmptyString, s')]
      else []
  | EmptyString => []
  end.

(** [sorted(to_convert, key=len, reverse=True)] of [__seqToRE]: a stable
    sort, longest names first. *)
Fixpoint insert_by_len (x : string) (l : list string) : list string :=
  match l with
  | [] => [x]
  | y :: l' =>
      if (String.length y <=? String.length x)%nat then x :: l
      else y :: insert_by_len x l'
  end.

Definition sorted_by_len (l : list string) : list string :=
  foldr insert_by_len [] l.

Definition __seqToRE (to_convert : list string) : re :=
  alt (List.map literal (sorted_by_len to_convert)).

(** [LocaleTime.f_weekday] and [LocaleTime.f_month] in the C locale. *)
Definition f_weekday : list string :=
  ["monday"; "tuesday"; "wednesday"; "thursday"; "friday"; "saturday"; "sunday"].

Definition f_month : list string :=
  [""; "january"; "february"; "march"; "april"; "may"; "june"; "july";
   "august"; "september"; "october"; "november"; "december"].

Definition chr (ch : string) (c : ascii) : bool := in_range ch ch c.

Definition re_A : re := __seqToRE f_weekday.
Definition re_B : re := __seqToRE (tail f_month).
Definition re_d : re :=
  alt [classes [chr "3"; in_range "0" "1"]; classes [in_range "1" "2"; is_digit];
       classes [chr "0"; in_range "1" "9"]; classes [in_range "1" "9"];
       classes [chr " "; in_range "1" "9"]].
Definition re_H : re :=
  alt [classes [chr "2"; in_range "0" "3"]; classes [in_range "0" "1"; is_digit];
       classes [is_digit]].
Definition re_M : re :=
  alt [classes [in_range "0" "5"; is_digit]; classes [is_digit]].

(** The groups of a match. *)
Record found_dict : Type := mk_found {
  group_A : string; group_d : string; group_B : string;
  group_H : string; group_M : string
}.

(** The whole expression: each way to match, with the unmatched rest. *)
Definition format_regex (s : string) : list (found_dict * string) :=
  flat_map (fun '(a, s) =>
  flat_map (fun '(_, s) =>
  flat_map (fun '(d, s) =>
  flat_map (fun '(_, s) =>
  flat_map (fun '(b, s) =>
  flat_map (fun '(_, s) =>
  flat_map (fun '(h, s) =>
  flat_map (fun '(_, s) =>
  List.map (fun '(m, s) => (mk_found a d b h m, s))
    (re_M s)) (classes [chr ":"] s)) (re_H s)) (spaces s)) (re_B s))
    (spaces s)) (re_d s)) (spaces s)) (re_A s).

(** [int(text)] for text made of optional leading blanks and digits. *)
Fixpoint int_digits (acc : Z) (s : string) : Z :=
  match s with
  | EmptyString => acc
  | String c r => int_digits (acc * 10 + Z.of_N (code c - 48)) r
  end.

Fixpoint lstrip (s : string) : string :=
  match s with
  | String c r => if is_space c then lstrip r else s
  | EmptyString => s
  end.

Definition int (s : string) : Z := int_digits 0 (lstrip s).

(** [list.index]. *)
Fixpoint list_index (x : string) (l : list string) : option Z :=
  match l with
  | [] => None
  | y :: l' =>
      if String.eqb y x then Some 0%Z
      else option_map Z.succ (list_index x l')
  end.

Definition index_or_raise (x : string) (l : list string) : result Z :=
  match list_index x l with
  | Some i => Ok i
  | None => Raise ValueError
  end.

(** The fields [_strptime] returns that the caller uses, and the weekday it
    read from the text: [(year, month, day, hour, minute, second, weekday)]. *)
Definition _strptime (data_string : string) : result (Z * Z * Z * Z * Z * Z * Z) :=
  match format_regex data_string with
  | [] => Raise ValueError                       (* does not match format *)
  | (found, rest) :: _ =>
      match rest with
      | String _ _ => Raise ValueError           (* unconverted data remains *)
      | EmptyString =>
          weekday <- index_or_raise (lower (group_A found)) f_weekday ;;
          let day := int (group_d found) in
          month <- index_or_raise (lower (group_B found)) f_month ;;
          let hour := int (group_H found) in
          let minute := int (group_M found) in
          let leap_year_fix := ((month =? 2) && (day =? 29))%Z in
          let year := if leap_year_fix then 1904%Z else 1900%Z in
          ordinal <- Datetime.date_toordinal year month day ;;
          first <- Datetime.date_toordinal year 1 1 ;;
          let julian := (ordinal - first + 1)%Z in
          let year := if leap_year_fix then 1900%Z else year in
          Ok (year, month, day, hour, minute, 0%Z, weekday)
      end
  end.

(** [datetime.strptime(data_string, "%A %d %B %H:%M")]: the weekday read
    is not an argument of the [datetime] constructor. *)
Definition strptime (data_string : string) : result Datetime.datetime :=
  fields <- _strptime data_string ;;
  let '(year, month, day, hour, minute, second, _) := fields in
  Datetime.new year month day hour minute second 0.

End Strptime.

(** ** icalendar: components as property dictionaries *)

Module Icalendar.

(** A property value: [vText], [vDDDTypes] around a [datetime], a plain
    [str] stored by item assignment, or the list [add] builds when a
    property is added twice. *)
#[warnings="-register-all"]
Inductive prop : Type :=
| vText (s : string)
| vDDDTypes (dt : Datetime.datetime)
| PyStr (s : string)
| PropList (l : list prop).

Definition upper_char (c : ascii) : ascii :=
  if Strptime.in_range "a" "z" c then ascii_of_N (Strptime.code c - 32) else c.

(** [CaselessDict] keeps its keys in upper case. *)
Fixpoint upper (s : string) : string :=
  match s with
  | EmptyString => EmptyString
  | String c r => String (upper_char c) (upper r)
  end.

(** [component[name] = value]. *)
Definition setitem (name : string) (value : prop) (c : gmap string prop) : gmap string prop :=
  <[upper name := value]> c.

(** [Component.add(name, value)] with the value already encoded. *)
Definition add (name : string) (value : prop) (c : gmap string prop) : gmap string prop :=
  match c !! upper name with
  | Some (PropList l) => <[upper name := PropList (l ++ [value])]> c
  | Some oldval => <[upper name := PropList [oldval; value]]> c
  | None => <[upper name := value]> c
  end.

(** A [Calendar]: its own properties and its events in the order added. *)
Record Calendar : Type := mk_Calendar {
  properties : gmap string prop;
  subcomponents : list (gmap string prop)
}.

Definition add_component (event : gmap string prop) (cal : Calendar) : Calendar :=
  mk_Calendar (properties cal) (subcomponents cal ++ [event]).

End Icalendar.

(** ** The platform: network, parser library, random identifiers, files *)

Record response : Type := mk_response { status_code : Z; text : string }.

(** What the program calls and does not define. [html_parser page] is
    [BeautifulSoup(page, 'html.parser')]: the tree, or the exception the
    parser raises on markup it rejects. [uuid4 n] is the text of the [n]-th
    identifier drawn in a run; the file system operations return the file
    system they leave behind together with their outcome. *)
Class Platform (fs : Type) : Type := {
  requests_get : string -> gmap string string -> result response;
  html_parser : string -> result Bs4.node;
  uuid4 : nat -> string;
  to_ical : Icalendar.Calendar -> string;
  path_exists : fs -> string -> bool;
  makedirs : fs -> string -> fs * result unit;
  write_binary : fs -> string -> string -> fs * result unit
}.

(** The state a run threads: the file system and how many identifiers have
    been drawn. *)
Record world (fs : Type) : Type := mk_world { disk : fs; drawn : nat }.
Arguments mk_world {fs} disk drawn.
Arguments disk {fs} w.
Arguments drawn {fs} w.

(** Computations that read and change the world and may raise. *)
Definition io (fs A : Type) : Type := world fs -> world fs * result A.

Definition io_ret {fs A : Type} (a : A) : io fs A := fun w => (w, Ok a).

Definition io_bind {fs A B : Type} (m : io fs A) (k : A -> io fs B) : io fs B :=
  fun w =>
    match m w with
    | (w', Ok a) => k a w'
    | (w', Raise e) => (w', Raise e)
    end.

Definition io_lift {fs A : Type} (r : result A) : io fs A := fun w => (w, r).

Notation "x <~ m ;; k" := (io_bind m (fun x => k))
  (at level 100, m at next level, right associativity).

(** [d[key]]. *)
Definition getitem {V : Type} (d : gmap string V) (key : string) : result V :=
  match d !! key with
  | Some v => Ok v
  | None => Raise KeyError
  end.

(** [posixpath.join(a, b)]. *)
Definition path_join (a b : string) : string :=
  if String.prefix "/" b then b
  else if String.eqb a "" || String.eqb (String.substring (String.length a - 1) 1 a) "/"
       then a ++ b
       else a ++ "/" ++ b.

(** ** MatchFixture *)

Module MatchFixture.

Record t : Type := mk {
  team : option string;
  opponent : option string;
  home : bool;
  datetime : Datetime.datetime
}.

Definition __parse_datetime (date time : option string) : result Datetime.datetime :=
  let datetime_str := py_str date ++ " " ++ py_str time in
  Strptime.strptime datetime_str.

Definition __init__ (team opponent : option string) (home : bool)
    (date time : option string) : result t :=
  dt <- __parse_datetime date time ;;
  Ok (mk team opponent home dt).

Definition get_datetime (self : t) : Datetime.datetime := datetime self.

Definition get_title (self : t) : string :=
  if home self
  then py_str (team self) ++ " vs " ++ py_str (opponent self)
  else py_str (opponent self) ++ " vs " ++ py_str (team self).

Definition __str__ (self : t) : string :=
  get_title self ++ " on " ++ Datetime.strftime_mdY_IMp (datetime self).

End MatchFixture.

(** [element.string] where [element] may be [None]. *)
Definition dot_string (element : option Bs4.node) : result (option string) :=
  match element with
  | Some e => Ok (Bs4.string e)
  | None => Raise AttributeError
  end.

(** ** ManVFatConnector *)

Module ManVFatConnector.

(** The four elements looked up in one list item (lines 101-116). *)
Definition date_element (li : Bs4.node) : option Bs4.node :=
  Bs4.find "h4" [] li.

Definition team_element (li : Bs4.node) : option Bs4.node :=
  match Bs4.find "div" [("class", "team text-right")] li with
  | Some team_element => Bs4.find "span" [] team_element
  | None => None
  end.

Definition opponent_element (li : Bs4.node) : option Bs4.node :=
  match Bs4.find "div" [("class", "team right text-left")] li with
  | Some opponent_element => Bs4.find "span" [] opponent_element
  | None => None
  end.

Definition time_element (li : Bs4.node) : option Bs4.node :=
  match Bs4.find "div" [("class", "schedule")] li with
  | Some time_element =>
      match Bs4.find_all "span" [("class", "match-time")] time_element with
      | _ :: second :: _ => Some second       (* len >= 2: match_time_elements[1] *)
      | _ => Some time_element
      end
  | None => None
  end.

(** The body of the loop for one list item: the dictionary appended. *)
Definition li_match (li : Bs4.node) : result (gmap string (option string)) :=
  team <- dot_string (team_element li) ;;
  date <- dot_string (date_element li) ;;
  opponent <- dot_string (opponent_element li) ;;
  time <- dot_string (time_element li) ;;
  Ok (<["team" := team]> (<["date" := date]> (<["opponent" := opponent]> (<["time" := time]> ∅)))).

(** [for li in upcoming_fixtures: ... match_fixtures.append(match)]. *)
Fixpoint fixtures_loop (upcoming_fixtures : list Bs4.node)
    (match_fixtures : list (gmap string (option string)))
    : result (list (gmap string (option string))) :=
  match upcoming_fixtures with
  | [] => Ok match_fixtures
  | li :: rest =>
      m <- li_match li ;;
      fixtures_loop rest (match_fixtures ++ [m])
  end.

(** [__get_fixtures] from the parsed page on. *)
Definition get_fixtures_of_soup (soup : Bs4.node) : result (list (gmap string (option string))) :=
  match Bs4.find "div" [("id", "upcomingfixtures")] soup with
  | Some fixtures =>
      match Bs4.find_all "li" [] fixtures with
      | [] => Ok []
      | upcoming_fixtures => fixtures_loop upcoming_fixtures []
      end
  | None => Ok []
  end.

Record t : Type := mk { page_url : string; team : string }.

(** [__init__]: both settings are read with [os.environ[...]]. *)
Definition __init__ (environ : gmap string string) : result t :=
  page_url <- getitem environ "URL" ;;
  team <- getitem environ "TEAM" ;;
  Ok (mk page_url team).

Definition get_request_headers : gmap string string :=
  <["Content-Type" := "application/text"]>
    (<["Accept" := "application/text"]>
      (<["User-agent" := "Mozilla/5.0 (Windows NT 10.0; Win64; x64) AppleWebKit/537.36 (KHTML, like Gecko) Chrome/121.0.0.0 Safari/537.36"]> ∅)).

(** [Response.raise_for_status]. *)
Definition raise_for_status (r : response) : result unit :=
  if ((400 <=? status_code r) && (status_code r <? 600))%Z
  then Raise HTTPError else Ok tt.

(** One round of [get_team_fixtures]'s loop: the fixture built for a
    record, if the record is for the team. *)
Definition team_fixture (self_team : string) (fixture : gmap string (option string))
    : result (option MatchFixture.t) :=
  tm <- getitem fixture "team" ;;
  if bool_decide (tm = Some self_team) then
    a_team <- getitem fixture "team" ;;
    a_opponent <- getitem fixture "opponent" ;;
    a_date <- getitem fixture "date" ;;
    a_time <- getitem fixture "time" ;;
    m <- MatchFixture.__init__ a_team a_opponent true a_date a_time ;;
    Ok (Some m)
  else
    op <- getitem fixture "opponent" ;;
    if bool_decide (op = Some self_team) then
      a_team <- getitem fixture "team" ;;
      a_opponent <- getitem fixture "opponent" ;;
      a_date <- getitem fixture "date" ;;
      a_time <- getitem fixture "time" ;;
      m <- MatchFixture.__init__ a_team a_opponent false a_date a_time ;;
      Ok (Some m)
    else Ok None.

(** [for fixture in fixtures: ... team_fixtures.append(match)]. *)
Fixpoint team_fixtures_loop (self_team : string)
    (fixtures : list (gmap string (option string)))
    (team_fixtures : list MatchFixture.t) : result (list MatchFixture.t) :=
  match fixtures with
  | [] => Ok team_fixtures
  | fixture :: rest =>
      m <- team_fixture self_team fixture ;;
      match m with
      | Some m => team_fixtures_loop self_team rest (team_fixtures ++ [m])
      | None => team_fixtures_loop self_team rest team_fixtures
      end
  end.

Section WithPlatform.
Context {fs : Type} `{Platform fs}.

Definition get_page_content (self : t) : result string :=
  r <- requests_get (page_url self) get_request_headers ;;
  _ <- raise_for_status r ;;
  Ok (text r).

Definition __get_fixtures (self : t) : result (list (gmap string (option string))) :=
  page <- get_page_content self ;;
  soup <- html_parser page ;;
  get_fixtures_of_soup soup.

Definition get_team_fixtures (self : t) : result (list MatchFixture.t) :=
  fixtures <- __get_fixtures self ;;
  team_fixtures_loop (team self) fixtures [].

End WithPlatform.

End ManVFatConnector.

(** ** ManVFatCalender *)

Module ManVFatCalender.

Record t : Type := mk { cal : Icalendar.Calendar; location : Icalendar.prop }.

Definition __init__ (team location : string) : t :=
  let props := Icalendar.add "prodid"
    (Icalendar.vText ("-//Man V Fat Calender Oldbury - " ++ team ++ "//manvfatfootball.org//")) ∅ in
  let props := Icalendar.add "version" (Icalendar.vText "2.0") props in
  mk (Icalendar.mk_Calendar props []) (Icalendar.vText location).

Section WithPlatform.
Context {fs : Type} `{Platform fs}.

(** [add_event]; [if event:] holds for every component
    ([Component.__bool__] is [True]). *)
Definition add_event (self : t) (event : gmap string Icalendar.prop) : io fs t :=
  fun w =>
    let uid := uuid4 (drawn w) in
    let event := Icalendar.setitem "uid" (Icalendar.PyStr uid) event in
    let event := Icalendar.setitem "location" (location self) event in
    (mk_world (disk w) (S (drawn w)),
     Ok (mk (Icalendar.add_component event (cal self)) (location self))).

(** [export_calendar]: [open(file_name, 'wb')] and the write. *)
Definition export_calendar (self : t) (file_name : string) : io fs unit :=
  fun w =>
    let '(d, r) := write_binary (disk w) file_name (to_ical (cal self)) in
    (mk_world d (drawn w), r).

End WithPlatform.

End ManVFatCalender.

(** ** ManVFatCalendarExporter *)

Module ManVFatCalendarExporter.

Record t : Type := mk {
  location : string;
  team : string;
  export_path : option string;
  fixtures : list MatchFixture.t
}.

(** [__init__]; the export path is read with [os.environ.get]. *)
Definition __init__ (environ : gmap string string) (team location : string)
    (fixtures : list MatchFixture.t) : t :=
  mk location team (environ !! "ExportPath") fixtures.

(** The event built for one fixture, before [add_event] (lines 175-179). *)
Definition fixture_event (fixture : MatchFixture.t) : result (gmap string Icalendar.prop) :=
  let event : gmap string Icalendar.prop := ∅ in
  let event := Icalendar.add "name" (Icalendar.vText (MatchFixture.get_title fixture)) event in
  let event := Icalendar.add "description" (Icalendar.vText (MatchFixture.__str__ fixture)) event in
  let event := Icalendar.add "dtstart" (Icalendar.vDDDTypes (MatchFixture.get_datetime fixture)) event in
  dtend <- Datetime.add (MatchFixture.get_datetime fixture) (Datetime.timedelta_new 0 0 0 30 0) ;;
  Ok (Icalendar.add "dtend" (Icalendar.vDDDTypes dtend) event).

(** The location the [__main__] block passes. *)
Definition venue : string := "Portway Lifestyle Centre, Oldbury Birmingham, B69 1HE".

Section WithPlatform.
Context {fs : Type} `{Platform fs}.

(** [for fixture in self.fixtures: ... cal.add_event(event)]. *)
Fixpoint events_loop (fixtures : list MatchFixture.t) (cal : ManVFatCalender.t)
    : io fs ManVFatCalender.t :=
  match fixtures with
  | [] => io_ret cal
  | fixture :: rest =>
      event <~ io_lift (fixture_event fixture) ;;
      cal <~ ManVFatCalender.add_event cal event ;;
      events_loop rest cal
  end.

(** [os.path.join(self.export_path, "MyCalendar")]. *)
Definition join_export_path (export_path : option string) : result string :=
  match export_path with
  | Some p => Ok (path_join p "MyCalendar")
  | None => Raise TypeError
  end.

(** [if not os.path.exists(directory): os.makedirs(directory)]. *)
Definition ensure_directory (directory : string) : io fs unit :=
  fun w =>
    if path_exists (disk w) directory then (w, Ok tt)
    else
      let '(d, r) := makedirs (disk w) directory in
      (mk_world d (drawn w), r).

Definition export_to_ical (self : t) (filename : string) : io fs unit :=
  let cal := ManVFatCalender.__init__ (team self) (location self) in
  cal <~ events_loop (fixtures self) cal ;;
  directory <~ io_lift (join_export_path (export_path self)) ;;
  _ <~ ensure_directory directory ;;
  let filename := path_join directory filename in
  ManVFatCalender.export_calendar cal filename.

(** The [__main__] block. *)
Definition main (environ : gmap string string) : io fs unit :=
  man <~ io_lift (ManVFatConnector.__init__ environ) ;;
  matches <~ io_lift (ManVFatConnector.get_team_fixtures man) ;;
  let export := __init__ environ (ManVFatConnector.team man) venue matches in
  export_to_ical export "MyCalendar.ics".

End WithPlatform.

End ManVFatCalendarExporter.

(** ** Vocabulary of the statements *)

(** A record is for the team when either slot holds exactly its name. *)
Definition for_team (team : string) (r : gmap string (option string)) : bool :=
  bool_decide (r !! "team" = Some (Some team))
  || bool_decide (r !! "opponent" = Some (Some team)).

(** The fixture [f] is the one built from record [r] for the team: same
    slots, home exactly when the team slot matched, the home side first in
    the title. *)
Definition built_from (self_team : string) (r : gmap string (option string))
    (f : MatchFixture.t) : Prop :=
  exists t o,
    r !! "team" = Some t /\ r !! "opponent" = Some o /\
    MatchFixture.team f = t /\ MatchFixture.opponent f = o /\
    ((t = Some self_team /\ MatchFixture.home f = true /\
      MatchFixture.get_title f = py_str t ++ " vs " ++ py_str o)
     \/
     (t <> Some self_team /\ o = Some self_team /\ MatchFixture.home f = false /\
      MatchFixture.get_title f = py_str o ++ " vs " ++ py_str t)).

(** The fixture container is absent, or holds no list item. *)
Definition no_items (soup : Bs4.node) : Prop :=
  Bs4.find "div" [("id", "upcomingfixtures")] soup = None
  \/ exists container,
       Bs4.find "div" [("id", "upcomingfixtures")] soup = Some container
       /\ Bs4.find_all "li" [] container = [].

(** [add_event]'s two assignments on an event. *)
Definition stamped (location : Icalendar.prop) (uid : string)
    (event : gmap string Icalendar.prop) : gmap string Icalendar.prop :=
  Icalendar.setitem "location" location (Icalendar.setitem "uid" (Icalendar.PyStr uid) event).

(** [timedelta(minutes=30)]. *)
Definition thirty_minutes : Datetime.timedelta := Datetime.timedelta_new 0 0 0 30 0.

(** The display format in the spec's words, "MM/DD/YYYY hh:mm AM/PM", written
    out digit by digit: month, day and minute on two digits, the year on
    four, the hour on the 12-hour clock (12 for midnight and for noon) on
    two digits, and AM before noon, PM from noon on. *)
Definition digit (n : Z) : string := String (ascii_of_N (48 + Z.to_N n)) EmptyString.

Definition two_digits (n : Z) : string := digit (n / 10) ++ digit (n mod 10).

Definition four_digits (n : Z) : string := two_digits (n / 100) ++ two_digits (n mod 100).

Definition hour_of_12 (h : Z) : Z :=
  if (h =? 0)%Z || (h =? 12)%Z then 12%Z else if (h <? 12)%Z then h else (h - 12)%Z.

Definition MM_DD_YYYY_hh_mm_AM_PM (dt : Datetime.datetime) : string :=
  two_digits (Datetime.month dt) ++ "/" ++ two_digits (Datetime.day dt) ++ "/"
  ++ four_digits (Datetime.year dt) ++ " "
  ++ two_digits (hour_of_12 (Datetime.hour dt)) ++ ":" ++ two_digits (Datetime.minute dt)
  ++ " " ++ (if (Datetime.hour dt <? 12)%Z then "AM" else "PM").

(** A timestamp with a four-digit year and a month, day, hour and minute in
    the ranges a [datetime] can hold. *)
Definition displayable (dt : Datetime.datetime) : Prop :=
  (1000 <= Datetime.year dt <= 9999)%Z /\ (1 <= Datetime.month dt <= 12)%Z /\
  (1 <= Datetime.day dt <= 31)%Z /\ (0 <= Datetime.hour dt <= 23)%Z /\
  (0 <= Datetime.minute dt <= 59)%Z.

(** ** A platform to run the program on

    A file system that records the calls made on it, a network that answers
    every request with one fixed page, and a parser that returns one fixed
    tree. *)

Module Recording.

Inductive call : Type :=
| Makedirs (path : string)
| Write (path : string) (content : string).

Definition is_makedirs (p : string) (c : call) : bool :=
  match c with
  | Makedirs q => String.eqb p q
  | Write _ _ => false
  end.

Definition clock (v : option Icalendar.prop) : string :=
  match v with
  | Some (Icalendar.vDDDTypes dt) =>
      Datetime.dec2 (Datetime.hour dt) ++ ":" ++ Datetime.dec2 (Datetime.minute dt)
  | _ => "?"
  end.

(** One entry per event: its name and its start and end on the clock. *)
Definition event_line (event : gmap string Icalendar.prop) : string :=
  match event !! "NAME" with
  | Some (Icalendar.vText s) =>
      s ++ " " ++ clock (event !! "DTSTART") ++ "-" ++ clock (event !! "DTEND") ++ ";"
  | _ => "?;"
  end.

Definition render (cal : Icalendar.Calendar) : string :=
  String.concat "" (List.map event_line (Icalendar.subcomponents cal)).

Definition platform (status : Z) (soup : Bs4.node) : Platform (list call) := {|
  requests_get := fun _ _ => Ok (mk_response status "<html>");
  html_parser := fun _ => Ok soup;
  uuid4 := fun n => "uuid-" ++ Datetime.dec (Z.of_nat n);
  to_ical := render;
  path_exists := fun log p => existsb (is_makedirs p) log;
  makedirs := fun log p => ((log ++ [Makedirs p])%list, Ok tt);
  write_binary := fun log p content => ((log ++ [Write p content])%list, Ok tt)
|}.

(** The same platform with a parser that rejects the page. *)
Definition rejecting (status : Z) : Platform (list call) := {|
  requests_get := fun _ _ => Ok (mk_response status "<![x]>");
  html_parser := fun _ => Raise ParserRejectedMarkup;
  uuid4 := fun n => "uuid-" ++ Datetime.dec (Z.of_nat n);
  to_ical := render;
  path_exists := fun log p => existsb (is_makedirs p) log;
  makedirs := fun log p => ((log ++ [Makedirs p])%list, Ok tt);
  write_binary := fun log p content => ((log ++ [Write p content])%list, Ok tt)
|}.

End Recording.

(** ** The page of the end-to-end example *)

Module Example.

Definition cls (l : list string) : gmap string Bs4.attr_value := {[ "class" := Bs4.AttrList l ]}.

Definition schedule : Bs4.node :=
  Bs4.Tag "div" (cls ["schedule"])
    [Bs4.Tag "span" (cls ["match-time"]) [Bs4.NavigableString "18:00"];
     Bs4.Tag "span" (cls ["match-time"]) [Bs4.NavigableString "19:45"]].

Definition li : Bs4.node :=
  Bs4.Tag "li" ∅
    [Bs4.Tag "h4" ∅ [Bs4.NavigableString "Tuesday 14 May"];
     Bs4.Tag "div" (cls ["team"; "text-right"]) [Bs4.Tag "span" ∅ [Bs4.NavigableString "Oldbury"]];
     schedule;
     Bs4.Tag "div" (cls ["team"; "right"; "text-left"]) [Bs4.Tag "span" ∅ [Bs4.NavigableString "Rivals FC"]]].

Definition page (items : list Bs4.node) : Bs4.node :=
  Bs4.Tag "[document]" ∅
    [Bs4.Tag "html" ∅ [Bs4.Tag "body" ∅
      [Bs4.Tag "div" {[ "id" := Bs4.AttrStr "upcomingfixtures" ]} [Bs4.Tag "ul" ∅ items]]]].

Definition soup : Bs4.node := page [li].

Definition environ : gmap string string :=
  <["URL" := "https://example.org/league"]>
    (<["TEAM" := "Oldbury"]> (<["ExportPath" := "out"]> ∅)).

Definition start : Datetime.datetime := Datetime.mk_datetime 1900 5 14 19 45 0 0.
Definition finish : Datetime.datetime := Datetime.mk_datetime 1900 5 14 20 15 0 0.

Definition fixture : MatchFixture.t :=
  MatchFixture.mk (Some "Oldbury") (Some "Rivals FC") true start.

Definition raw (team opponent date time : string) : gmap string (option string) :=
  <["team" := Some team]> (<["date" := Some date]>
    (<["opponent" := Some opponent]> (<["time" := Some time]> ∅))).

(** The event and the calendar the run builds for [fixture]. *)
Definition event : gmap string Icalendar.prop :=
  stamped (Icalendar.vText ManVFatCalendarExporter.venue) "uuid-0"
    (<["DTEND" := Icalendar.vDDDTypes finish]>
      (<["DTSTART" := Icalendar.vDDDTypes start]>
        (<["DESCRIPTION" := Icalendar.vText "Oldbury vs Rivals FC on 05/14/1900 07:45 PM"]>
          (<["NAME" := Icalendar.vText "Oldbury vs Rivals FC"]> ∅)))).

Definition calendar : ManVFatCalender.t :=
  ManVFatCalender.mk
    (Icalendar.add_component event
       (ManVFatCalender.cal (ManVFatCalender.__init__ "Oldbury" ManVFatCalendarExporter.venue)))
    (Icalendar.vText ManVFatCalendarExporter.venue).

(** A fixture in the last half hour of the last day [datetime] can hold. *)
Definition last_fixture : MatchFixture.t :=
  MatchFixture.mk (Some "Oldbury") (Some "Rivals FC") true
    (Datetime.mk_datetime 9999 12 31 23 45 0 0).

End Example.

(** ** Vocabulary of the further properties *)

(** The record [r] is the one [__get_fixtures] builds for the list item
    [li]: all four elements are found and each field is the [.string] of
    its element. *)
Definition record_of (li : Bs4.node) (r : gmap string (option string)) : Prop :=
  exists t d o ti,
    ManVFatConnector.team_element li = Some t /\
    ManVFatConnector.date_element li = Some d /\
    ManVFatConnector.opponent_element li = Some o /\
    ManVFatConnector.time_element li = Some ti /\
    r = <["team" := Bs4.string t]> (<["date" := Bs4.string d]>
          (<["opponent" := Bs4.string o]> (<["time" := Bs4.string ti]> ∅))).

(** The record has the four keys the filter reads. *)
Definition well_keyed (r : gmap string (option string)) : Prop :=
  is_Some (r !! "team") /\ is_Some (r !! "opponent") /\
  is_Some (r !! "date") /\ is_Some (r !! "time").

(** The text ends with a decimal digit. *)
Fixpoint ends_with_digit (s : string) : bool :=
  match s with
  | EmptyString => false
  | String c EmptyString => Strptime.is_digit c
  | String _ r => ends_with_digit r
  end.

(** A pattern only returns splits of its input. *)
Definition splits (r : Strptime.re) : Prop :=
  forall s m rest, In (m, rest) (r s) -> s = m ++ rest.

(** The part of [Strptime.format_regex] after the weekday group, for the
    weekday text [a]. *)
Definition after_weekday (a : string) (s : string) : list (Strptime.found_dict * string) :=
  flat_map (fun '(_, s) =>
  flat_map (fun '(d, s) =>
  flat_map (fun '(_, s) =>
  flat_map (fun '(b, s) =>
  flat_map (fun '(_, s) =>
  flat_map (fun '(h, s) =>
  flat_map (fun '(_, s) =>
  List.map (fun '(m, s) => (Strptime.mk_found a d b h m, s))
    (Strptime.re_M s)) (Strptime.classes [Strptime.chr ":"] s)) (Strptime.re_H s))
    (Strptime.spaces s)) (Strptime.re_B s)) (Strptime.spaces s)) (Strptime.re_d s))
    (Strptime.spaces s).

(** A match with its two names and the text left put in lower case. *)
Definition lower_names (x : Strptime.found_dict * string) : Strptime.found_dict * string :=
  (Strptime.mk_found (Strptime.lower (Strptime.group_A (fst x))) (Strptime.group_d (fst x))
     (Strptime.lower (Strptime.group_B (fst x))) (Strptime.group_H (fst x))
     (Strptime.group_M (fst x)),
   Strptime.lower (snd x)).

(** A character class that holds no upper-case letter. *)
Definition caseless (p : ascii -> bool) : Prop :=
  forall c, p (Strptime.lower_char c) = p c /\ (p c = true -> Strptime.lower_char c = c).

(** What putting the input in lower case does to a match of a class
    sequence, and to a match of a name. *)
Definition keep (x : string * string) : string * string :=
  (fst x, Strptime.lower (snd x)).
Definition low (x : string * string) : string * string :=
  (Strptime.lower (fst x), Strptime.lower (snd x)).

(** How a run that started in [w] can end in [w'] with result [r]: a
    setting is missing; or the fetch, the extraction or the parsing raised;
    or the export path is not set; or [makedirs] raised; or the calendar of
    all the team's fixtures was handed to the write, whose result is the
    run's. *)
Definition run_outcome {fs : Type} `{Platform fs} (environ : gmap string string)
    (w w' : world fs) (r : result unit) : Prop :=
  (w' = w /\ r = Raise KeyError /\ (environ !! "URL" = None \/ environ !! "TEAM" = None))
  \/
  exists url team,
    environ !! "URL" = Some url /\ environ !! "TEAM" = Some team /\
    ((exists e,
        ManVFatConnector.get_team_fixtures (ManVFatConnector.mk url team) = Raise e /\
        w' = w /\ r = Raise e)
     \/
     exists matches,
       ManVFatConnector.get_team_fixtures (ManVFatConnector.mk url team) = Ok matches /\
       drawn w' = drawn w + length matches /\
       ((environ !! "ExportPath" = None /\ disk w' = disk w /\ r = Raise TypeError)
        \/
        exists p,
          environ !! "ExportPath" = Some p /\
          ((path_exists (disk w) (path_join p "MyCalendar") = false /\
            exists e, makedirs (disk w) (path_join p "MyCalendar") = (disk w', Raise e)
                      /\ r = Raise e)
           \/
           exists d cal,
             (path_exists (disk w) (path_join p "MyCalendar") = true /\ d = disk w
              \/ path_exists (disk w) (path_join p "MyCalendar") = false /\
                 makedirs (disk w) (path_join p "MyCalendar") = (d, Ok tt)) /\
             length (Icalendar.subcomponents cal) = length matches /\
             write_binary d (path_join (path_join p "MyCalendar") "MyCalendar.ics")
                          (to_ical cal) = (disk w', r)))).

(** ** More sample data *)

Module Samples.

(** The fixture container of [Example.page]. *)
Definition container (items : list Bs4.node) : Bs4.node :=
  Bs4.Tag "div" {[ "id" := Bs4.AttrStr "upcomingfixtures" ]} [Bs4.Tag "ul" ∅ items].

(** A schedule block with one candidate only, and a list item holding it. *)
Definition short_schedule : Bs4.node :=
  Bs4.Tag "div" (Example.cls ["schedule"])
    [Bs4.Tag "span" (Example.cls ["match-time"]) [Bs4.NavigableString "19:45"]].

Definition short_li : Bs4.node :=
  Bs4.Tag "li" ∅
    [Bs4.Tag "h4" ∅ [Bs4.NavigableString "Tuesday 14 May"];
     Bs4.Tag "div" (Example.cls ["team"; "text-right"])
       [Bs4.Tag "span" ∅ [Bs4.NavigableString "Oldbury"]];
     short_schedule;
     Bs4.Tag "div" (Example.cls ["team"; "right"; "text-left"])
       [Bs4.Tag "span" ∅ [Bs4.NavigableString "Rivals FC"]]].

(** Three records: a home game, a game of two other teams, an away game. *)
Definition records : list (gmap string (option string)) :=
  [Example.raw "Oldbury" "Rivals FC" "Tuesday 14 May" "19:45";
   Example.raw "Albion" "Rivals FC" "Tuesday 14 May" "19:45";
   Example.raw "Albion" "Oldbury" "Tuesday 21 May" "20:15"].

Definition away_fixture : MatchFixture.t :=
  MatchFixture.mk (Some "Albion") (Some "Oldbury") false
    (Datetime.mk_datetime 1900 5 21 20 15 0 0).

Definition matches : list MatchFixture.t := [Example.fixture; away_fixture].

(** Records of which one, not for the team, has no date the parser reads;
    and a record for the team with such a date. *)
Definition undated (team opponent : string) : gmap string (option string) :=
  <["team" := Some team]> (<["date" := None]>
    (<["opponent" := Some opponent]> (<["time" := Some "19:45"]> ∅))).

(** The calendar built for [Example.fixture] when [n] identifiers have been
    drawn before. *)
Definition event_at (n : nat) : gmap string Icalendar.prop :=
  stamped (Icalendar.vText ManVFatCalendarExporter.venue)
    ("uuid-" ++ Datetime.dec (Z.of_nat n))
    (<["DTEND" := Icalendar.vDDDTypes Example.finish]>
      (<["DTSTART" := Icalendar.vDDDTypes Example.start]>
        (<["DESCRIPTION" := Icalendar.vText "Oldbury vs Rivals FC on 05/14/1900 07:45 PM"]>
          (<["NAME" := Icalendar.vText "Oldbury vs Rivals FC"]> ∅)))).

Definition calendar_at (n : nat) : ManVFatCalender.t :=
  ManVFatCalender.mk
    (Icalendar.add_component (event_at n)
       (ManVFatCalender.cal (ManVFatCalender.__init__ "Oldbury" ManVFatCalendarExporter.venue)))
    (Icalendar.vText ManVFatCalendarExporter.venue).

(** An exporter for [Example.fixture], with and without an export path. *)
Definition exporter (export_path : option string) : ManVFatCalendarExporter.t :=
  ManVFatCalendarExporter.mk ManVFatCalendarExporter.venue "Oldbury" export_path
    [Example.fixture].

End Samples.

(** * Evaluation checks *)

Example ymd2ord_1900_05_14 : Datetime._ymd2ord 1900 5 14 = 693729%Z.
Proof. reflexivity. Qed.

Example ord2ymd_693729 : Datetime._ord2ymd 693729 = (1900, 5, 14)%Z.
Proof. reflexivity. Qed.

Example ord2ymd_max : Datetime._ord2ymd Datetime._MAXORDINAL = (9999, 12, 31)%Z.
Proof. reflexivity. Qed.

Example ord2ymd_leap_day : Datetime._ord2ymd 730179 = (2000, 2, 29)%Z.
Proof. vm_compute. reflexivity. Qed.

Example add_across_midnight :
  Datetime.add (Datetime.mk_datetime 1900 5 14 23 45 0 0) (Datetime.timedelta_new 0 0 0 30 0)
  = Ok (Datetime.mk_datetime 1900 5 15 0 15 0 0).
Proof. reflexivity. Qed.

Example add_overflows :
  Datetime.add (Datetime.mk_datetime 9999 12 31 23 45 0 0) (Datetime.timedelta_new 0 0 0 30 0)
  = Raise OverflowError.
Proof. reflexivity. Qed.

Example strftime_example :
  Datetime.strftime_mdY_IMp Example.start = "05/14/1900 07:45 PM".
Proof. reflexivity. Qed.

Example strftime_midnight :
  Datetime.strftime_mdY_IMp (Datetime.mk_datetime 1900 1 2 0 5 0 0) = "01/02/1900 12:05 AM".
Proof. reflexivity. Qed.

Example strftime_noon :
  Datetime.strftime_mdY_IMp (Datetime.mk_datetime 2024 12 31 12 0 0 0) = "12/31/2024 12:00 PM".
Proof. reflexivity. Qed.

Example strftime_morning :
  Datetime.strftime_mdY_IMp (Datetime.mk_datetime 1900 10 9 9 59 0 0) = "10/09/1900 09:59 AM".
Proof. reflexivity. Qed.

Example regex_names_order :
  Strptime.sorted_by_len Strptime.f_weekday
  = ["wednesday"; "thursday"; "saturday"; "tuesday"; "monday"; "friday"; "sunday"].
Proof. vm_compute. reflexivity. Qed.

Example strptime_case_and_blanks :
  Strptime.strptime "monday  5 FEBRUARY 9:5" = Ok (Datetime.mk_datetime 1900 2 5 9 5 0 0).
Proof. vm_compute. reflexivity. Qed.

Example strptime_leap_day_rejected :
  Strptime.strptime "monday 29 february 9:05" = Raise ValueError.
Proof. vm_compute. reflexivity. Qed.

Example strptime_day_out_of_month : Strptime.strptime "monday 31 april 9:05" = Raise ValueError.
Proof. vm_compute. reflexivity. Qed.

Example strptime_unconverted_data : Strptime.strptime "monday 30 april 9:599" = Raise ValueError.
Proof. vm_compute. reflexivity. Qed.

Example strptime_of_None : MatchFixture.__parse_datetime None (Some "19:45") = Raise ValueError.
Proof. vm_compute. reflexivity. Qed.

Example extraction_example :
  ManVFatConnector.get_fixtures_of_soup Example.soup =
  Ok [<["team" := Some "Oldbury"]> (<["date" := Some "Tuesday 14 May"]>
       (<["opponent" := Some "Rivals FC"]> (<["time" := Some "19:45"]> ∅)))].
Proof. vm_compute. reflexivity. Qed.

Example team_fixtures_example :
  @ManVFatConnector.get_team_fixtures _ (Recording.platform 200 Example.soup)
    (ManVFatConnector.mk "u" "Oldbury") = Ok [Example.fixture].
Proof. vm_compute. reflexivity. Qed.

Example http_error_example :
  @ManVFatConnector.get_team_fixtures _ (Recording.platform 404 Example.soup)
    (ManVFatConnector.mk "u" "Oldbury") = Raise HTTPError.
Proof. vm_compute. reflexivity. Qed.

Example parser_error_example :
  @ManVFatCalendarExporter.main _ (Recording.rejecting 200) Example.environ (mk_world [] 0)
  = (mk_world [] 0, Raise ParserRejectedMarkup).
Proof. vm_compute. reflexivity. Qed.

Example main_example :
  @ManVFatCalendarExporter.main _ (Recording.platform 200 Example.soup) Example.environ
    (mk_world [] 0)
  = (mk_world [Recording.Makedirs "out/MyCalendar";
               Recording.Write "out/MyCalendar/MyCalendar.ics" "Oldbury vs Rivals FC 19:45-20:15;"] 1,
     Ok tt).
Proof. vm_compute. reflexivity. Qed.

Example fixture_event_example :
  ManVFatCalendarExporter.fixture_event Example.fixture =
  Ok (<["NAME" := Icalendar.vText "Oldbury vs Rivals FC"]>
       (<["DESCRIPTION" := Icalendar.vText "Oldbury vs Rivals FC on 05/14/1900 07:45 PM"]>
         (<["DTSTART" := Icalendar.vDDDTypes Example.start]>
           (<["DTEND" := Icalendar.vDDDTypes Example.finish]> ∅)))).
Proof. vm_compute. reflexivity. Qed.

(** * Fixture extraction *)

Section PageExtraction.
Import ManVFatConnector.

Lemma find_None name attrs n :
  Bs4.find name attrs n = None <-> Bs4.find_all name attrs n = [].
Proof.
  unfold Bs4.find. destruct (Bs4.find_all name attrs n); split; congruence.
Qed.

Lemma dot_string_raises element e :
  dot_string element = Raise e -> e = AttributeError.
Proof. destruct element; simpl; congruence. Qed.

(** The only exception one list item can raise. *)
Lemma li_match_raises li e : li_match li = Raise e -> e = AttributeError.
Proof.
  unfold li_match, bind.
  destruct (dot_string (team_element li)) eqn:E1; [|intros [= <-]; eauto using dot_string_raises].
  destruct (dot_string (date_element li)) eqn:E2; [|intros [= <-]; eauto using dot_string_raises].
  destruct (dot_string (opponent_element li)) eqn:E3; [|intros [= <-]; eauto using dot_string_raises].
  destruct (dot_string (time_element li)) eqn:E4; [|intros [= <-]; eauto using dot_string_raises].
  discriminate.
Qed.

Lemma li_match_missing li :
  date_element li = None \/ team_element li = None \/
  opponent_element li = None \/ time_element li = None ->
  li_match li = Raise AttributeError.
Proof.
  intros Hmiss. destruct (li_match li) as [m|e] eqn:E.
  - exfalso. unfold li_match, bind in E.
    destruct (team_element li); [|destruct Hmiss as [?|[?|[?|?]]]; discriminate].
    destruct (date_element li); [|simpl in E; discriminate].
    destruct (opponent_element li); [|simpl in E; discriminate].
    destruct (time_element li); [|simpl in E; discriminate].
    destruct Hmiss as [?|[?|[?|?]]]; discriminate.
  - f_equal. eauto using li_match_raises.
Qed.

Lemma fixtures_loop_raises lis : forall acc e,
  fixtures_loop lis acc = Raise e -> e = AttributeError.
Proof.
  induction lis as [|li lis IH]; simpl; intros acc e; [discriminate|].
  unfold bind. destruct (li_match li) eqn:E; [apply IH|].
  intros [= <-]. eauto using li_match_raises.
Qed.

Lemma fixtures_loop_missing lis : forall acc li,
  li ∈ lis -> li_match li = Raise AttributeError ->
  fixtures_loop lis acc = Raise AttributeError.
Proof.
  induction lis as [|x lis IH]; intros acc li Hin Hli.
  - inversion Hin.
  - simpl. unfold bind. destruct (li_match x) eqn:E.
    + apply elem_of_cons in Hin as [->|Hin]; [congruence|]. eapply IH; eauto.
    + f_equal. eauto using li_match_raises.
Qed.

Lemma li_match_time li m :
  li_match li = Ok m ->
  exists e, time_element li = Some e /\ m !! "time" = Some (Bs4.string e).
Proof.
  unfold li_match, bind.
  destruct (dot_string (team_element li)); [|discriminate].
  destruct (dot_string (date_element li)); [|discriminate].
  destruct (dot_string (opponent_element li)); [|discriminate].
  destruct (time_element li) as [e|]; simpl; [|discriminate].
  intros [= <-]. exists e. split; [reflexivity|].
  by simplify_map_eq.
Qed.

End PageExtraction.

(** * The team filter *)

Section Filter.
Import ManVFatConnector.

Lemma getitem_Ok {V} (d : gmap string V) k v : getitem d k = Ok v <-> d !! k = Some v.
Proof. unfold getitem. destruct (d !! k); split; congruence. Qed.

(** What one round of the loop does with a record. *)
Lemma team_fixture_inv self_team r m :
  team_fixture self_team r = Ok m ->
  exists t o,
    r !! "team" = Some t /\ r !! "opponent" = Some o /\
    match m with
    | Some f =>
        exists d ti,
          r !! "date" = Some d /\ r !! "time" = Some ti /\
          (t = Some self_team \/ o = Some self_team) /\
          MatchFixture.__init__ t o (bool_decide (t = Some self_team)) d ti = Ok f
    | None => t <> Some self_team /\ o <> Some self_team
    end.
Proof.
  unfold team_fixture, bind, getitem.
  destruct (r !! "team") as [t|]; [|discriminate].
  case_bool_decide as Ht.
  - destruct (r !! "opponent") as [o|]; [|discriminate].
    destruct (r !! "date") as [d|]; [|discriminate].
    destruct (r !! "time") as [ti|]; [|discriminate].
    destruct (MatchFixture.__init__ t o true d ti) eqn:E; intros [= <-].
    exists t, o. split; [done|]. split; [done|]. exists d, ti.
    rewrite bool_decide_true by done. eauto 6.
  - destruct (r !! "opponent") as [o|]; [|discriminate].
    case_bool_decide as Ho.
    + destruct (r !! "date") as [d|]; [|discriminate].
      destruct (r !! "time") as [ti|]; [|discriminate].
      destruct (MatchFixture.__init__ t o false d ti) eqn:E; intros [= <-].
      exists t, o. split; [done|]. split; [done|]. exists d, ti.
      rewrite bool_decide_false by done. eauto 6.
    + intros [= <-]. exists t, o. eauto.
Qed.

Lemma team_fixture_for_team self_team r m :
  team_fixture self_team r = Ok m -> for_team self_team r = bool_decide (is_Some m).
Proof.
  intros (t & o & Ht & Ho & Hm)%team_fixture_inv. unfold for_team.
  rewrite Ht, Ho. destruct m as [f|].
  - destruct Hm as (d & ti & _ & _ & [->| ->] & _);
      repeat case_bool_decide; try done; naive_solver.
  - destruct Hm. repeat case_bool_decide; try done; naive_solver.
Qed.

Lemma team_fixtures_loop_app self_team l1 : forall l2 acc,
  team_fixtures_loop self_team (l1 ++ l2) acc
  = bind (team_fixtures_loop self_team l1 acc) (team_fixtures_loop self_team l2).
Proof.
  induction l1 as [|r l1 IH]; intros l2 acc; simpl; [reflexivity|].
  unfold bind at 1 3. destruct (team_fixture self_team r) as [[f|]|]; auto.
Qed.

Lemma team_fixtures_loop_acc self_team l : forall acc,
  team_fixtures_loop self_team l acc
  = bind (team_fixtures_loop self_team l []) (fun out => Ok (acc ++ out)%list).
Proof.
  induction l as [|r l IH]; intros acc; simpl.
  - by rewrite app_nil_r.
  - unfold bind at 1 3. destruct (team_fixture self_team r) as [[f|]|]; auto.
    rewrite (IH (acc ++ [f])%list), (IH [f]). unfold bind.
    destruct (team_fixtures_loop self_team l []); auto.
    by rewrite <- app_assoc.
Qed.

(** The loop keeps exactly the records for the team, in their order. *)
Lemma team_fixtures_loop_filter self_team (R : gmap string (option string) -> MatchFixture.t -> Prop) :
  (forall r f, team_fixture self_team r = Ok (Some f) -> R r f) ->
  forall fixtures acc out,
    team_fixtures_loop self_team fixtures acc = Ok out ->
    exists new, out = (acc ++ new)%list /\ Forall2 R (List.filter (for_team self_team) fixtures) new.
Proof.
  intros HR. induction fixtures as [|r l IH]; intros acc out; simpl.
  - intros [= <-]. exists []. by rewrite app_nil_r.
  - unfold bind. destruct (team_fixture self_team r) as [m|] eqn:E; [|discriminate].
    rewrite (team_fixture_for_team _ _ _ E). destruct m as [f|].
    + rewrite bool_decide_true by eauto.
      intros (new & -> & HF)%IH. exists (f :: new). rewrite <- app_assoc. split; [done|].
      constructor; auto.
    + rewrite bool_decide_false by (by intros [? ?]).
      intros (new & -> & HF)%IH. exists new. split; done.
Qed.
End Filter.

(** * Parsing the date and time *)

Section Parsing.
Lemma _strptime_year s y m d h mi sec wd :
  Strptime._strptime s = Ok (y, m, d, h, mi, sec, wd) -> y = 1900%Z /\ sec = 0%Z.
Proof.
  unfold Strptime._strptime, bind.
  destruct (Strptime.format_regex s) as [|[found rest] ?]; [discriminate|].
  destruct rest; [|discriminate].
  destruct (Strptime.index_or_raise _ Strptime.f_weekday); [|discriminate].
  destruct (Strptime.index_or_raise _ Strptime.f_month); [|discriminate].
  destruct (Datetime.date_toordinal _ _ _); [|discriminate].
  destruct (Datetime.date_toordinal _ _ _); [|discriminate].
  intros [= <- <- <- <- <- <- <-]. split; [|done]. by case_match.
Qed.

Lemma strptime_year s dt : Strptime.strptime s = Ok dt -> Datetime.year dt = 1900%Z.
Proof.
  unfold Strptime.strptime, bind.
  destruct (Strptime._strptime s) as [[[[[[[y m] d] h] mi] sec] wd]|] eqn:E; [|discriminate].
  apply _strptime_year in E as [-> ->]. unfold Datetime.new.
  case_match; [|discriminate]. by intros [= <-].
Qed.
End Parsing.

(** * Dates as day numbers *)

Section Ordinals.
Import Datetime.
Local Open Scope Z_scope.

Lemma month_day_checked leapyear n :
  0 <= n < 366 -> month_day_ok leapyear n = true.
Proof.
  intros Hn.
  assert (Hall : forallb (fun b => forallb (month_day_ok b) (seqZ 0 366)) [true; false] = true)
    by (vm_compute; reflexivity).
  rewrite forallb_forall in Hall.
  assert (Hb : In leapyear [true; false]) by (destruct leapyear; simpl; auto).
  specialize (Hall _ Hb). rewrite forallb_forall in Hall. apply Hall.
  apply list_elem_of_In, elem_of_seqZ. lia.
Qed.

Lemma month_day_spec leapyear n m d :
  0 <= n < 366 -> month_day leapyear n = (m, d) ->
  1 <= m <= 12 /\ 1 <= d /\
  index _DAYS_BEFORE_MONTH m + (if (2 <? m) && leapyear then 1 else 0) + d = n + 1.
Proof.
  intros Hn Hmd. pose proof (month_day_checked leapyear n Hn) as Hok.
  unfold month_day_ok in Hok. rewrite Hmd in Hok.
  repeat (apply andb_prop in Hok as [Hok ?]). lia.
Qed.

Lemma _ord2ymd_month_day n0 :
  let n := n0 - 1 in
  let n400 := n / _DI400Y in
  let r1 := n mod _DI400Y in
  let n100 := r1 / _DI100Y in
  let r2 := r1 mod _DI100Y in
  let n4 := r2 / _DI4Y in
  let r3 := r2 mod _DI4Y in
  let n1 := r3 / 365 in
  let r4 := r3 mod 365 in
  let y := n400 * 400 + 1 + n100 * 100 + n4 * 4 + n1 in
  _ord2ymd n0 =
    if (n1 =? 4) || (n100 =? 4) then (y - 1, 12, 31)
    else
      let '(m, d) := month_day ((n1 =? 3) && (negb (n4 =? 24) || (n100 =? 3))) r4 in
      (y, m, d).
Proof.
  intros. unfold _ord2ymd, month_day. fold n n400 r1 n100 r2 n4 r3 n1 r4 y.
  destruct ((n1 =? 4) || (n100 =? 4)); [reflexivity|].
  cbv zeta. by case_match.
Qed.

Lemma _is_leap_spec y :
  _is_leap y = true <-> y mod 4 = 0 /\ (y mod 100 <> 0 \/ y mod 400 = 0).
Proof.
  unfold _is_leap. rewrite andb_true_iff, orb_true_iff, negb_true_iff.
  rewrite !Z.eqb_eq, Z.eqb_neq. tauto.
Qed.

(** [_ymd2ord] undoes [_ord2ymd]. *)
Lemma _ymd2ord_ord2ymd n y m d :
  0 < n -> _ord2ymd n = (y, m, d) -> _ymd2ord y m d = n.
Proof.
  intros Hn. rewrite _ord2ymd_month_day. cbv zeta.
  unfold _DI400Y, _DI100Y, _DI4Y.
  set (n' := n - 1).
  pose proof (Z.div_mod n' 146097 ltac:(lia)) as E1.
  pose proof (Z.mod_pos_bound n' 146097 ltac:(lia)) as B1.
  set (n400 := n' / 146097) in *. set (r1 := n' mod 146097) in *.
  pose proof (Z.div_mod r1 36524 ltac:(lia)) as E2.
  pose proof (Z.mod_pos_bound r1 36524 ltac:(lia)) as B2.
  set (n100 := r1 / 36524) in *. set (r2 := r1 mod 36524) in *.
  pose proof (Z.div_mod r2 1461 ltac:(lia)) as E3.
  pose proof (Z.mod_pos_bound r2 1461 ltac:(lia)) as B3.
  set (n4 := r2 / 1461) in *. set (r3 := r2 mod 1461) in *.
  pose proof (Z.div_mod r3 365 ltac:(lia)) as E4.
  pose proof (Z.mod_pos_bound r3 365 ltac:(lia)) as B4.
  set (n1 := r3 / 365) in *. set (r4 := r3 mod 365) in *.
  assert (0 <= n100 <= 4 /\ 0 <= n4 <= 24 /\ 0 <= n1 <= 4) as (H100 & H4 & H1) by lia.
  set (leapyear := (n1 =? 3) && (negb (n4 =? 24) || (n100 =? 3))).
  destruct ((n1 =? 4) || (n100 =? 4)) eqn:Especial.
  - intros [= <- <- <-].
    apply orb_true_iff in Especial. rewrite !Z.eqb_eq in Especial.
    unfold _ymd2ord, _days_before_year, _days_before_month.
    change (index _DAYS_BEFORE_MONTH 12) with 334.
    change (2 <? 12) with true. cbv [andb].
    assert (Hleap : _is_leap (n400 * 400 + 1 + n100 * 100 + n4 * 4 + n1 - 1) = true).
    { apply _is_leap_spec. Z.div_mod_to_equations. lia. }
    rewrite Hleap. Z.div_mod_to_equations. lia.
  - apply orb_false_iff in Especial as [N1 N100]. rewrite Z.eqb_neq in N1, N100.
    destruct (month_day leapyear r4) as [m' d'] eqn:Emd. intros [= <- <- <-].
    apply month_day_spec in Emd as (Hm & Hd & Hsum); [|lia].
    unfold _ymd2ord, _days_before_year, _days_before_month.
    assert (Hleap : _is_leap (n400 * 400 + 1 + n100 * 100 + n4 * 4 + n1) = leapyear).
    { apply eq_true_iff_eq. rewrite _is_leap_spec. unfold leapyear.
      rewrite andb_true_iff, orb_true_iff, negb_true_iff, !Z.eqb_eq, Z.eqb_neq.
      Z.div_mod_to_equations. lia. }
    rewrite Hleap. Z.div_mod_to_equations. lia.
Qed.

(** Addition moves the instant by the length of the [timedelta]. *)
Lemma add_instant dt td r :
  add dt td = Ok r -> instant r = instant dt + total_microseconds td.
Proof.
  unfold add. set (delta := timedelta_add _ td).
  destruct ((0 <? days delta) && (days delta <=? _MAXORDINAL)) eqn:Hrange; [|discriminate].
  apply andb_prop in Hrange as [Hpos _]. apply Z.ltb_lt in Hpos.
  destruct (_ord2ymd (days delta)) as [[y m] d] eqn:Eord. intros [= <-].
  apply _ymd2ord_ord2ymd in Eord; [|done].
  unfold instant, toordinal at 1, total_microseconds. cbn [year month day hour minute second microsecond].
  rewrite Eord. subst delta. clear.
  unfold timedelta_add, timedelta_new. cbn [days seconds microseconds].
  generalize (toordinal dt). intros o.
  Z.div_mod_to_equations. lia.
Qed.
End Ordinals.

(** * Building and writing the calendar *)

Section CalendarExport.
Context {fs : Type} `{Platform fs}.
Import ManVFatCalendarExporter.

Lemma fixture_event_eq f :
  fixture_event f =
  bind (Datetime.add (MatchFixture.datetime f) thirty_minutes) (fun dtend =>
    Ok (<["DTEND" := Icalendar.vDDDTypes dtend]>
         (<["DTSTART" := Icalendar.vDDDTypes (MatchFixture.datetime f)]>
           (<["DESCRIPTION" := Icalendar.vText (MatchFixture.__str__ f)]>
             (<["NAME" := Icalendar.vText (MatchFixture.get_title f)]> ∅))))).
Proof.
  unfold fixture_event, Icalendar.add, MatchFixture.get_datetime, thirty_minutes.
  change (Icalendar.upper "name") with "NAME".
  change (Icalendar.upper "description") with "DESCRIPTION".
  change (Icalendar.upper "dtstart") with "DTSTART".
  change (Icalendar.upper "dtend") with "DTEND".
  by simplify_map_eq.
Qed.

Lemma stamped_lookup location uid f event :
  fixture_event f = Ok event ->
  let ev := stamped location uid event in
  ev !! "NAME" = Some (Icalendar.vText (MatchFixture.get_title f)) /\
  ev !! "DESCRIPTION" = Some (Icalendar.vText (MatchFixture.__str__ f)) /\
  ev !! "DTSTART" = Some (Icalendar.vDDDTypes (MatchFixture.datetime f)) /\
  (exists dtend, Datetime.add (MatchFixture.datetime f) thirty_minutes = Ok dtend /\
                 ev !! "DTEND" = Some (Icalendar.vDDDTypes dtend)) /\
  ev !! "LOCATION" = Some location /\
  ev !! "UID" = Some (Icalendar.PyStr uid).
Proof.
  rewrite fixture_event_eq. unfold bind.
  destruct (Datetime.add _ _) as [dtend|]; [|discriminate]. intros [= <-].
  unfold stamped, Icalendar.setitem.
  change (Icalendar.upper "location") with "LOCATION".
  change (Icalendar.upper "uid") with "UID".
  simpl. repeat split; try by simplify_map_eq.
  exists dtend. by simplify_map_eq.
Qed.

(** The loop applies no file system operation. *)
Lemma events_loop_disk fixtures : forall cal w,
  disk (fst (events_loop fixtures cal w)) = disk w.
Proof.
  induction fixtures as [|f l IH]; intros cal w; simpl; [done|].
  unfold io_bind, io_lift. destruct (fixture_event f); simpl; [|done].
  by rewrite IH.
Qed.

Lemma events_loop_raises fixtures : forall cal w f e,
  f ∈ fixtures -> fixture_event f = Raise e ->
  exists e', snd (events_loop fixtures cal w) = Raise e'.
Proof.
  induction fixtures as [|x l IH]; intros cal w f e Hin Hf.
  - inversion Hin.
  - simpl. unfold io_bind, io_lift. destruct (fixture_event x) eqn:E; simpl; [|eauto].
    apply elem_of_cons in Hin as [->|Hin]; [congruence|]. eauto.
Qed.

(** A loop that ends normally has appended one stamped event per fixture,
    in the order of the fixtures. *)
Lemma events_loop_ok fixtures : forall cal w w' cal',
  events_loop fixtures cal w = (w', Ok cal') ->
  w' = mk_world (disk w) (drawn w + length fixtures) /\
  ManVFatCalender.location cal' = ManVFatCalender.location cal /\
  Icalendar.properties (ManVFatCalender.cal cal')
    = Icalendar.properties (ManVFatCalender.cal cal) /\
  exists events,
    Icalendar.subcomponents (ManVFatCalender.cal cal')
      = (Icalendar.subcomponents (ManVFatCalender.cal cal) ++ events)%list /\
    Forall2 (fun f ev => exists event n,
               fixture_event f = Ok event /\
               ev = stamped (ManVFatCalender.location cal) (uuid4 n) event)
            fixtures events.
Proof.
  induction fixtures as [|f l IH]; intros cal w w' cal'; simpl.
  - unfold io_ret. intros [= <- <-]. destruct w; simpl. rewrite Nat.add_0_r.
    repeat split; try done. exists []. by rewrite app_nil_r.
  - unfold io_bind, io_lift. destruct (fixture_event f) as [event|] eqn:E; [|discriminate].
    unfold ManVFatCalender.add_event at 1.
    intros (-> & Hloc & Hprops & events & Hsub & HF)%IH. simpl in *.
    split; [f_equal; lia|]. split; [done|]. split; [done|].
    exists (stamped (ManVFatCalender.location cal) (uuid4 (drawn w)) event :: events).
    split; [by rewrite Hsub, <- app_assoc|]. constructor; eauto.
Qed.

(** When every event can be built the loop ends normally. *)
Lemma events_loop_total fixtures : forall cal w,
  Forall (fun f => is_ok (fixture_event f) = true) fixtures ->
  exists w' cal', events_loop fixtures cal w = (w', Ok cal').
Proof.
  induction fixtures as [|f l IH]; intros cal w HF; simpl.
  - unfold io_ret. eauto.
  - inversion HF as [|? ? Hf Hl]; subst. unfold io_bind, io_lift.
    destruct (fixture_event f); [|discriminate]. simpl. apply IH, Hl.
Qed.
Lemma init_location team location :
  ManVFatCalender.location (ManVFatCalender.__init__ team location) = Icalendar.vText location.
Proof. reflexivity. Qed.

Lemma init_subcomponents team location :
  Icalendar.subcomponents (ManVFatCalender.cal (ManVFatCalender.__init__ team location)) = [].
Proof. reflexivity. Qed.

(** The steps of [export_to_ical] after the loop. *)
Lemma export_to_ical_eq self filename w :
  export_to_ical self filename w =
  match events_loop (fixtures self) (ManVFatCalender.__init__ (team self) (location self)) w with
  | (w', Ok cal) =>
      match export_path self with
      | Some p =>
          let directory := path_join p "MyCalendar" in
          match ensure_directory directory w' with
          | (w'', Ok _) => ManVFatCalender.export_calendar cal (path_join directory filename) w''
          | (w'', Raise e) => (w'', Raise e)
          end
      | None => (w', Raise TypeError)
      end
  | (w', Raise e) => (w', Raise e)
  end.
Proof.
  unfold export_to_ical, io_bind, io_lift, join_export_path.
  destruct (events_loop _ _ w) as [w' [cal|e]]; [|done].
  destruct (export_path self); [|done].
  by destruct (ensure_directory _ w') as [w'' [[]|e]].
Qed.

(** An export that ends normally has written the serialised calendar the
    loop built. *)
Lemma export_to_ical_ok self filename w w' :
  export_to_ical self filename w = (w', Ok tt) ->
  exists w1 cal p d,
    events_loop (fixtures self) (ManVFatCalender.__init__ (team self) (location self)) w
      = (w1, Ok cal) /\
    export_path self = Some p /\
    write_binary d (path_join (path_join p "MyCalendar") filename)
                 (to_ical (ManVFatCalender.cal cal)) = (disk w', Ok tt).
Proof.
  rewrite export_to_ical_eq.
  destruct (events_loop _ _ w) as [w1 [cal|e]]; [|discriminate].
  destruct (export_path self) as [p|]; [|discriminate]. cbv zeta.
  destruct (ensure_directory _ w1) as [w2 [[]|e]]; [|discriminate].
  unfold ManVFatCalender.export_calendar.
  destruct (write_binary _ _ _) as [d2 r] eqn:E. intros [= <- ->].
  exists w1, cal, p, (disk w2). by rewrite E.
Qed.

End CalendarExport.
(** * The claims *)

(** ** Extraction (C1, C5, C6) *)

(** C1. For every list item that is parsed and whose schedule block holds at
    least two match-time candidates, the time field of the record is the
    text of the second candidate, not the first. In particular, on the page
    of the example (one list item, team slot Oldbury, opponent slot
    Rivals FC, date Tuesday 14 May, candidates 18:00 and 19:45) with the
    team set to Oldbury, the run builds exactly one event, named
    "Oldbury vs Rivals FC", that starts at 19:45 and ends at 20:15, and
    writes the calendar holding it. *)
Theorem second_time_candidate_is_taken :
  (forall li sched first second others m,
      Bs4.find "div" [("class", "schedule")] li = Some sched ->
      Bs4.find_all "span" [("class", "match-time")] sched = first :: second :: others ->
      ManVFatConnector.li_match li = Ok m ->
      m !! "time" = Some (Bs4.string second))
  /\
  (let P := Recording.platform 200 Example.soup in
   ManVFatConnector.get_fixtures_of_soup Example.soup
     = Ok [Example.raw "Oldbury" "Rivals FC" "Tuesday 14 May" "19:45"] /\
   @ManVFatConnector.get_team_fixtures _ P (ManVFatConnector.mk "https://example.org/league" "Oldbury")
     = Ok [Example.fixture] /\
   @ManVFatCalendarExporter.events_loop _ P [Example.fixture]
      (ManVFatCalender.__init__ "Oldbury" ManVFatCalendarExporter.venue) (mk_world [] 0)
     = (mk_world [] 1, Ok Example.calendar) /\
   Icalendar.subcomponents (ManVFatCalender.cal Example.calendar) = [Example.event] /\
   Example.event !! "NAME" = Some (Icalendar.vText "Oldbury vs Rivals FC") /\
   Example.event !! "DTSTART" = Some (Icalendar.vDDDTypes Example.start) /\
   (Datetime.hour Example.start, Datetime.minute Example.start) = (19, 45)%Z /\
   Example.event !! "DTEND" = Some (Icalendar.vDDDTypes Example.finish) /\
   (Datetime.hour Example.finish, Datetime.minute Example.finish) = (20, 15)%Z /\
   @ManVFatCalendarExporter.main _ P Example.environ (mk_world [] 0)
     = (mk_world [Recording.Makedirs "out/MyCalendar";
                  Recording.Write "out/MyCalendar/MyCalendar.ics"
                    (@to_ical _ P (ManVFatCalender.cal Example.calendar))] 1,
        Ok tt)).
Proof.
  split.
  - intros li sched c1 c2 others m Hs Hc (e & He & Hm)%li_match_time.
    unfold ManVFatConnector.time_element in He. rewrite Hs, Hc in He.
    by injection He as <-.
  - cbv zeta. repeat split; vm_compute; reflexivity.
Qed.

Lemma second_time_candidate_is_taken_witness :
  ManVFatConnector.li_match Example.li
    = Ok (Example.raw "Oldbury" "Rivals FC" "Tuesday 14 May" "19:45")
  /\ Example.raw "Oldbury" "Rivals FC" "Tuesday 14 May" "19:45" !! "time" = Some (Some "19:45").
Proof.
  split; [vm_compute; reflexivity|].
  apply (proj1 second_time_candidate_is_taken Example.li Example.schedule
           (Bs4.Tag "span" (Example.cls ["match-time"]) [Bs4.NavigableString "18:00"])
           (Bs4.Tag "span" (Example.cls ["match-time"]) [Bs4.NavigableString "19:45"])
           []);
    vm_compute; reflexivity.
Defined.

(** C5. When the fixture container is absent from the page, or holds no list
    item, extraction returns the empty list and raises nothing. A run on
    such a page, with its settings present, the request answered, the page
    parsed and the directory and file operations succeeding, ends normally
    and writes a calendar with no event. *)
Theorem no_items_gives_empty_calendar {fs : Type} {P : Platform fs} :
  (forall soup, no_items soup -> ManVFatConnector.get_fixtures_of_soup soup = Ok [])
  /\
  (forall (environ : gmap string string) url team p resp soup (w : world fs) d1 d2,
      environ !! "URL" = Some url ->
      environ !! "TEAM" = Some team ->
      environ !! "ExportPath" = Some p ->
      requests_get url ManVFatConnector.get_request_headers = Ok resp ->
      ManVFatConnector.raise_for_status resp = Ok tt ->
      html_parser (text resp) = Ok soup ->
      no_items soup ->
      let directory := path_join p "MyCalendar" in
      let cal := ManVFatCalender.cal (ManVFatCalender.__init__ team ManVFatCalendarExporter.venue) in
      (path_exists (disk w) directory = true /\ d1 = disk w
       \/ path_exists (disk w) directory = false /\ makedirs (disk w) directory = (d1, Ok tt)) ->
      write_binary d1 (path_join directory "MyCalendar.ics") (to_ical cal) = (d2, Ok tt) ->
      ManVFatConnector.get_team_fixtures (ManVFatConnector.mk url team) = Ok [] /\
      Icalendar.subcomponents cal = [] /\
      ManVFatCalendarExporter.main environ w = (mk_world d2 (drawn w), Ok tt)).
Proof.
  assert (Hsoup : forall soup, no_items soup -> ManVFatConnector.get_fixtures_of_soup soup = Ok []).
  { intros soup [Hnone|(c & Hc & Hli)]; unfold ManVFatConnector.get_fixtures_of_soup.
    - by rewrite Hnone.
    - by rewrite Hc, Hli. }
  split; [exact Hsoup|].
  intros environ url team p resp soup w d1 d2 Hurl Hteam Hpath Hget Hstatus Hparse Hno
    directory cal Hdir Hwrite.
  assert (Hfix : ManVFatConnector.get_team_fixtures (ManVFatConnector.mk url team) = Ok []).
  { unfold ManVFatConnector.get_team_fixtures, ManVFatConnector.__get_fixtures,
      ManVFatConnector.get_page_content. simpl.
    rewrite Hget. simpl. rewrite Hstatus. simpl. rewrite Hparse. simpl.
    by rewrite (Hsoup _ Hno). }
  split; [exact Hfix|]. split; [reflexivity|].
  unfold ManVFatCalendarExporter.main, ManVFatConnector.__init__, getitem, io_bind, io_lift.
  rewrite Hurl, Hteam. simpl. rewrite Hfix.
  rewrite export_to_ical_eq. simpl. unfold ManVFatCalendarExporter.__init__, io_ret. simpl.
  rewrite Hpath. fold directory. unfold ManVFatCalendarExporter.ensure_directory.
  destruct Hdir as [[Hex ->]|[Hex Hmk]]; rewrite Hex.
  - unfold ManVFatCalender.export_calendar. simpl.
    change (to_ical _) with (to_ical cal). by rewrite Hwrite.
  - rewrite Hmk. unfold ManVFatCalender.export_calendar. simpl.
    change (to_ical _) with (to_ical cal). by rewrite Hwrite.
Qed.

Lemma no_items_gives_empty_calendar_witness :
  @ManVFatCalendarExporter.main _ (Recording.platform 200 (Example.page [])) Example.environ
    (mk_world [] 0)
  = (mk_world [Recording.Makedirs "out/MyCalendar";
               Recording.Write "out/MyCalendar/MyCalendar.ics" ""] 0, Ok tt).
Proof.
  refine (proj2 (proj2 (proj2 (@no_items_gives_empty_calendar _ (Recording.platform 200 (Example.page [])))
    Example.environ "https://example.org/league" "Oldbury" "out" (mk_response 200 "<html>")
    (Example.page []) (mk_world [] 0) [Recording.Makedirs "out/MyCalendar"]
    [Recording.Makedirs "out/MyCalendar"; Recording.Write "out/MyCalendar/MyCalendar.ics" ""]
    _ _ _ _ _ _ _ _ _))); try (vm_compute; reflexivity).
  - right. eexists. split; vm_compute; reflexivity.
  - right. split; vm_compute; reflexivity.
Defined.

(** C6. Inside a present container, a list item that lacks the date label,
    the team span, the opponent span or the time element makes extraction
    fail with [MalformedFixtureError] (the [AttributeError] raised where the
    absent element is read): the record is not skipped and no list, partial
    or not, is returned. *)
Theorem missing_element_aborts_extraction (soup container li : Bs4.node) :
  Bs4.find "div" [("id", "upcomingfixtures")] soup = Some container ->
  li ∈ Bs4.find_all "li" [] container ->
  ManVFatConnector.date_element li = None \/ ManVFatConnector.team_element li = None \/
  ManVFatConnector.opponent_element li = None \/ ManVFatConnector.time_element li = None ->
  ManVFatConnector.get_fixtures_of_soup soup = Raise MalformedFixtureError.
Proof.
  intros Hc Hin Hmiss. unfold ManVFatConnector.get_fixtures_of_soup. rewrite Hc.
  destruct (Bs4.find_all "li" [] container) as [|x l] eqn:E; [inversion Hin|].
  eapply fixtures_loop_missing; eauto using li_match_missing.
Qed.

Lemma missing_element_aborts_extraction_witness :
  ManVFatConnector.get_fixtures_of_soup (Example.page [Example.li; Bs4.Tag "li" ∅ []])
  = Raise MalformedFixtureError.
Proof.
  apply (missing_element_aborts_extraction
           (Example.page [Example.li; Bs4.Tag "li" ∅ []])
           (Bs4.Tag "div" {[ "id" := Bs4.AttrStr "upcomingfixtures" ]}
              [Bs4.Tag "ul" ∅ [Example.li; Bs4.Tag "li" ∅ []]])
           (Bs4.Tag "li" ∅ [])).
  - vm_compute; reflexivity.
  - apply list_elem_of_In. vm_compute. right. left. reflexivity.
  - left. vm_compute; reflexivity.
Defined.

(** ** The team filter (C2, C9) *)

(** C2. When the filter returns, its output holds one fixture for each
    record whose team field or opponent field is exactly the configured team
    name, in order, and nothing for the other records. A record matched on
    its team field gives a home fixture titled "{team} vs {opponent}"; a
    record matched on its opponent field only gives an away fixture titled
    "{opponent} vs {team}". *)
Theorem team_filter_keeps_matching_records (self_team : string)
    (fixtures : list (gmap string (option string))) (out : list MatchFixture.t) :
  ManVFatConnector.team_fixtures_loop self_team fixtures [] = Ok out ->
  Forall2 (built_from self_team) (List.filter (for_team self_team) fixtures) out.
Proof.
  intros Hloop.
  eapply team_fixtures_loop_filter in Hloop as (new & -> & HF); [exact HF|].
  intros r f (t & o & Ht & Ho & d & ti & _ & _ & Hmatch & Hinit)%team_fixture_inv.
  exists t, o. unfold MatchFixture.__init__, bind in Hinit.
  destruct (MatchFixture.__parse_datetime d ti); [|discriminate].
  injection Hinit as <-. unfold MatchFixture.get_title. simpl.
  repeat split; try done. case_bool_decide as Heq.
  - left. done.
  - right. destruct Hmatch as [? | ->]; done.
Qed.

Lemma team_filter_keeps_matching_records_witness :
  Forall2 (built_from "Oldbury")
    (List.filter (for_team "Oldbury")
       [Example.raw "Oldbury" "Rivals FC" "Tuesday 14 May" "19:45";
        Example.raw "Albion" "Rivals FC" "Tuesday 14 May" "19:45";
        Example.raw "Albion" "Oldbury" "Tuesday 21 May" "20:15"])
    [MatchFixture.mk (Some "Oldbury") (Some "Rivals FC") true Example.start;
     MatchFixture.mk (Some "Albion") (Some "Oldbury") false
       (Datetime.mk_datetime 1900 5 21 20 15 0 0)].
Proof.
  apply team_filter_keeps_matching_records. vm_compute; reflexivity.
Defined.

(** C9. A record whose team field and opponent field both equal the
    configured team name gives exactly one fixture, and that fixture is a
    home fixture: the output is what the records before it give, then this
    one fixture, then what the records after it give. *)
Theorem both_slots_match_gives_one_home_fixture (self_team : string)
    (before after : list (gmap string (option string)))
    (r : gmap string (option string)) (out : list MatchFixture.t) :
  r !! "team" = Some (Some self_team) ->
  r !! "opponent" = Some (Some self_team) ->
  ManVFatConnector.team_fixtures_loop self_team (before ++ r :: after) [] = Ok out ->
  exists out1 f out2,
    ManVFatConnector.team_fixtures_loop self_team before [] = Ok out1 /\
    ManVFatConnector.team_fixtures_loop self_team after [] = Ok out2 /\
    out = (out1 ++ f :: out2)%list /\
    MatchFixture.home f = true /\
    MatchFixture.team f = Some self_team /\ MatchFixture.opponent f = Some self_team.
Proof.
  intros Ht Ho. rewrite team_fixtures_loop_app. unfold bind at 1.
  destruct (ManVFatConnector.team_fixtures_loop self_team before []) as [out1|]; [|discriminate].
  simpl. unfold bind at 1.
  destruct (ManVFatConnector.team_fixture self_team r) as [m|] eqn:E; [|discriminate].
  apply team_fixture_inv in E as (t & o & Ht' & Ho' & Hm).
  rewrite Ht in Ht'. rewrite Ho in Ho'. injection Ht' as <-. injection Ho' as <-.
  destruct m as [f|]; [|by destruct Hm].
  destruct Hm as (d & ti & _ & _ & _ & Hinit).
  rewrite bool_decide_true in Hinit by done.
  unfold MatchFixture.__init__, bind in Hinit.
  destruct (MatchFixture.__parse_datetime d ti); [|discriminate]. injection Hinit as <-.
  rewrite team_fixtures_loop_acc. unfold bind.
  destruct (ManVFatConnector.team_fixtures_loop self_team after []) as [out2|]; [|discriminate].
  intros [= <-]. eexists out1, _, out2. rewrite <- app_assoc. simpl. eauto 10.
Qed.

Lemma both_slots_match_gives_one_home_fixture_witness :
  exists out1 f out2,
    ManVFatConnector.team_fixtures_loop "Oldbury" [] [] = Ok out1 /\
    ManVFatConnector.team_fixtures_loop "Oldbury" [] [] = Ok out2 /\
    [MatchFixture.mk (Some "Oldbury") (Some "Oldbury") true Example.start]
      = (out1 ++ f :: out2)%list /\
    MatchFixture.home f = true /\
    MatchFixture.team f = Some "Oldbury" /\ MatchFixture.opponent f = Some "Oldbury".
Proof.
  apply (both_slots_match_gives_one_home_fixture "Oldbury" [] []
           (Example.raw "Oldbury" "Oldbury" "Tuesday 14 May" "19:45"));
    vm_compute; reflexivity.
Defined.

(** ** Parsing (C3, C8) *)

(** C3, as the claim states it, fails: the timestamp parsed from
    "Tuesday 14 May" and "19:45" does not fall on a Tuesday. *)
Lemma parsed_example_is_not_a_tuesday :
  ~ (exists dt,
        MatchFixture.__parse_datetime (Some "Tuesday 14 May") (Some "19:45") = Ok dt /\
        Datetime.hour dt = 19%Z /\ Datetime.minute dt = 45%Z /\
        Datetime.day dt = 14%Z /\ Datetime.month dt = 5%Z /\
        Datetime.weekday_name dt = "Tuesday").
Proof.
  intros (dt & Hparse & _ & _ & _ & _ & Hwd).
  assert (E : MatchFixture.__parse_datetime (Some "Tuesday 14 May") (Some "19:45")
              = Ok Example.start) by (vm_compute; reflexivity).
  rewrite E in Hparse. injection Hparse as <-. vm_compute in Hwd. discriminate.
Qed.

(** C3, amended. Parsing "Tuesday 14 May" with "19:45" succeeds and yields a
    timestamp whose hour is 19, minute 45, day 14 and month May. The weekday
    name is read from the text (as Tuesday, index 1) but is not kept: the
    timestamp's weekday is the one of its date in the year 1900, a Monday. *)
Theorem parsed_example_keeps_clock_day_and_month :
  exists dt,
    MatchFixture.__parse_datetime (Some "Tuesday 14 May") (Some "19:45") = Ok dt /\
    Datetime.hour dt = 19%Z /\ Datetime.minute dt = 45%Z /\
    Datetime.day dt = 14%Z /\ Datetime.month dt = 5%Z /\
    Strptime._strptime "Tuesday 14 May 19:45" = Ok (1900, 5, 14, 19, 45, 0, 1)%Z /\
    Datetime.year dt = 1900%Z /\
    Datetime.weekday_name dt = "Monday".
Proof.
  exists Example.start. repeat split; vm_compute; reflexivity.
Qed.

(** C8. Every timestamp the fixture parser returns is in the year 1900, the
    default of a pattern that carries no year. *)
Theorem parsed_year_is_1900 (date time : option string) (dt : Datetime.datetime) :
  MatchFixture.__parse_datetime date time = Ok dt -> Datetime.year dt = 1900%Z.
Proof. unfold MatchFixture.__parse_datetime. apply strptime_year. Qed.

Lemma parsed_year_is_1900_witness :
  MatchFixture.__parse_datetime (Some "Tuesday 14 May") (Some "19:45") = Ok Example.start
  /\ Datetime.year Example.start = 1900%Z.
Proof.
  split; [vm_compute; reflexivity|].
  apply (parsed_year_is_1900 (Some "Tuesday 14 May") (Some "19:45")).
  vm_compute; reflexivity.
Defined.

(** ** The calendar (C4, C7, C10) *)

(** The program's [strftime] against the display format of the spec. *)

Section DisplayFormat.
Import Datetime.
Local Open Scope Z_scope.

Lemma dec2_two_digits n : 0 <= n <= 99 -> dec2 n = two_digits n.
Proof.
  intros Hn.
  assert (Hall : forallb (fun n => String.eqb (dec2 n) (two_digits n)) (seqZ 0 100) = true)
    by (vm_compute; reflexivity).
  rewrite forallb_forall in Hall. apply String.eqb_eq, Hall.
  apply list_elem_of_In, elem_of_seqZ. lia.
Qed.

Lemma dec_four_digits n : 1000 <= n <= 9999 -> dec n = four_digits n.
Proof.
  intros Hn.
  assert (Hall : forallb (fun n => String.eqb (dec n) (four_digits n)) (seqZ 1000 9000) = true)
    by (vm_compute; reflexivity).
  rewrite forallb_forall in Hall. apply String.eqb_eq, Hall.
  apply list_elem_of_In, elem_of_seqZ. lia.
Qed.

Lemma hour12_hour_of_12 h : 0 <= h <= 23 -> hour12 h = hour_of_12 h /\ 1 <= hour12 h <= 12.
Proof.
  intros Hh.
  assert (Hall : forallb (fun h => (hour12 h =? hour_of_12 h) && (1 <=? hour12 h)
                                   && (hour12 h <=? 12)) (seqZ 0 24) = true)
    by (vm_compute; reflexivity).
  rewrite forallb_forall in Hall.
  specialize (Hall h ltac:(apply list_elem_of_In, elem_of_seqZ; lia)).
  apply andb_prop in Hall as [[H1 H2]%andb_prop H3]. lia.
Qed.

(** On a displayable timestamp [strftime('%m/%d/%Y %I:%M %p')] gives the
    display format. *)
Lemma strftime_display_format dt :
  displayable dt -> strftime_mdY_IMp dt = MM_DD_YYYY_hh_mm_AM_PM dt.
Proof.
  intros (Hy & Hm & Hd & Hh & Hmi).
  destruct (hour12_hour_of_12 _ Hh) as [H12 Hr].
  unfold strftime_mdY_IMp, MM_DD_YYYY_hh_mm_AM_PM, am_pm.
  rewrite !dec2_two_digits, dec_four_digits, H12 by lia. reflexivity.
Qed.

(** A timestamp the parser returns is displayable. *)
Lemma strptime_displayable s dt : Strptime.strptime s = Ok dt -> displayable dt.
Proof.
  unfold Strptime.strptime, bind.
  destruct (Strptime._strptime s) as [[[[[[[y m] d] h] mi] sec] wd]|] eqn:E; [|discriminate].
  apply _strptime_year in E as [-> ->]. unfold new.
  destruct (_check_date_fields 1900 m d && _) eqn:Hc; [|discriminate].
  intros [= <-]. unfold displayable. simpl.
  unfold _check_date_fields, _check_time_fields in Hc.
  repeat (apply andb_prop in Hc as [Hc ?]).
  assert (Hm : m = 1 \/ m = 2 \/ m = 3 \/ m = 4 \/ m = 5 \/ m = 6 \/ m = 7 \/ m = 8
               \/ m = 9 \/ m = 10 \/ m = 11 \/ m = 12) by lia.
  assert (Hd : d <= _days_in_month 1900 m) by lia.
  assert (d <= 31).
  { clear -Hm Hd.
    destruct Hm as [->|[->|[->|[->|[->|[->|[->|[->|[->|[->|[->| ->]]]]]]]]]]];
      match type of Hd with context [_days_in_month 1900 ?k] =>
        let v := eval vm_compute in (_days_in_month 1900 k) in
        change (_days_in_month 1900 k) with v in Hd end; lia. }
  lia.
Qed.
End DisplayFormat.

(** C4. When the loop over the fixtures ends normally, the calendar holds
    exactly one event per fixture: its name is the fixture's title, its
    description the fixture's display string, its start the fixture's
    timestamp, its end the instant thirty minutes after the start, and its
    location the calendar's location text. The display string is
    "{title} on {MM/DD/YYYY hh:mm AM/PM}", written out digit by digit, for
    every timestamp with a four-digit year and fields in the ranges of a
    [datetime]; every fixture the constructor builds has such a timestamp. *)
Theorem one_event_per_fixture {fs : Type} {P : Platform fs} :
  (forall (team location : string) (fixtures : list MatchFixture.t) (w w' : world fs)
          (cal' : ManVFatCalender.t),
      ManVFatCalendarExporter.events_loop fixtures (ManVFatCalender.__init__ team location) w
        = (w', Ok cal') ->
      Forall2
        (fun fixture event =>
           event !! "NAME" = Some (Icalendar.vText (MatchFixture.get_title fixture)) /\
           event !! "DESCRIPTION" = Some (Icalendar.vText (MatchFixture.__str__ fixture)) /\
           (displayable (MatchFixture.datetime fixture) ->
            MatchFixture.__str__ fixture
            = MatchFixture.get_title fixture ++ " on "
              ++ MM_DD_YYYY_hh_mm_AM_PM (MatchFixture.datetime fixture)) /\
           event !! "DTSTART" = Some (Icalendar.vDDDTypes (MatchFixture.datetime fixture)) /\
           (exists dtend,
               event !! "DTEND" = Some (Icalendar.vDDDTypes dtend) /\
               Datetime.add (MatchFixture.datetime fixture) thirty_minutes = Ok dtend /\
               Datetime.instant dtend
                 = (Datetime.instant (MatchFixture.datetime fixture) + 30 * 60 * 1000000)%Z) /\
           event !! "LOCATION" = Some (Icalendar.vText location))
        fixtures (Icalendar.subcomponents (ManVFatCalender.cal cal')))
  /\
  (forall team opponent home date time fixture,
      MatchFixture.__init__ team opponent home date time = Ok fixture ->
      displayable (MatchFixture.datetime fixture)).
Proof.
  split.
  - intros team location fixtures w w' cal'.
    intros (_ & _ & _ & events & -> & HF)%events_loop_ok. simpl.
    eapply Forall2_impl; [exact HF|]. intros f ev (event & n & Hev & ->).
    destruct (stamped_lookup (Icalendar.vText location) (uuid4 n) f event Hev)
      as (Hn & Hd & Hs & (dtend & Hadd & He) & Hl & _).
    split; [done|]. split; [done|]. split.
    { intros Hdisp. unfold MatchFixture.__str__. by rewrite strftime_display_format. }
    split; [done|]. split; [|done].
    exists dtend. split; [done|]. split; [done|].
    by rewrite (add_instant _ _ _ Hadd).
  - intros team opponent home date time fixture.
    unfold MatchFixture.__init__, MatchFixture.__parse_datetime, bind.
    destruct (Strptime.strptime _) as [dt|] eqn:E; [|discriminate].
    intros [= <-]. simpl. eauto using strptime_displayable.
Qed.

Lemma one_event_per_fixture_witness :
  exists event,
    Icalendar.subcomponents (ManVFatCalender.cal Example.calendar) = [event]
    /\ event !! "DESCRIPTION"
       = Some (Icalendar.vText (MatchFixture.__str__ Example.fixture))
    /\ MatchFixture.__str__ Example.fixture = "Oldbury vs Rivals FC on 05/14/1900 07:45 PM".
Proof.
  pose proof (proj1 (@one_event_per_fixture _ (Recording.platform 200 Example.soup))
                "Oldbury" ManVFatCalendarExporter.venue [Example.fixture]
                (mk_world [] 0) (mk_world [] 1) Example.calendar
                ltac:(vm_compute; reflexivity)) as HF.
  apply Forall2_cons_inv_l in HF as (event & rest & (_ & Hd & Hfmt & _) & Hrest & Heq).
  apply Forall2_nil_inv_l in Hrest as ->.
  exists event. split; [exact Heq|]. split; [exact Hd|].
  rewrite Hfmt; [vm_compute; reflexivity|].
  unfold displayable. simpl. lia.
Defined.

(** C7. Export is all or nothing. If the event of some fixture cannot be
    built, the export raises and the file system is the one it started from:
    no directory is created and no file written. In general, either that is
    the outcome, or the loop has built one event for every fixture and all
    that follows is the directory step and the write of that calendar. *)
Theorem export_is_all_or_nothing {fs : Type} {P : Platform fs}
    (self : ManVFatCalendarExporter.t) (filename : string) (w : world fs) :
  (forall fixture e,
      fixture ∈ ManVFatCalendarExporter.fixtures self ->
      ManVFatCalendarExporter.fixture_event fixture = Raise e ->
      disk (fst (ManVFatCalendarExporter.export_to_ical self filename w)) = disk w /\
      exists e', snd (ManVFatCalendarExporter.export_to_ical self filename w) = Raise e')
  /\
  ((disk (fst (ManVFatCalendarExporter.export_to_ical self filename w)) = disk w /\
    exists e', snd (ManVFatCalendarExporter.export_to_ical self filename w) = Raise e')
   \/
   (exists w' cal,
       ManVFatCalendarExporter.events_loop (ManVFatCalendarExporter.fixtures self)
         (ManVFatCalender.__init__ (ManVFatCalendarExporter.team self)
            (ManVFatCalendarExporter.location self)) w
         = (w', Ok cal) /\
       disk w' = disk w /\
       Forall2 (fun fixture event => exists ev n,
                  ManVFatCalendarExporter.fixture_event fixture = Ok ev /\
                  event = stamped (Icalendar.vText (ManVFatCalendarExporter.location self))
                            (uuid4 n) ev)
               (ManVFatCalendarExporter.fixtures self)
               (Icalendar.subcomponents (ManVFatCalender.cal cal)) /\
       ManVFatCalendarExporter.export_to_ical self filename w =
         (directory <~ io_lift (ManVFatCalendarExporter.join_export_path
                                  (ManVFatCalendarExporter.export_path self)) ;;
          _ <~ ManVFatCalendarExporter.ensure_directory directory ;;
          ManVFatCalender.export_calendar cal (path_join directory filename)) w')).
Proof.
  pose proof (events_loop_disk (ManVFatCalendarExporter.fixtures self)
                (ManVFatCalender.__init__ (ManVFatCalendarExporter.team self)
                   (ManVFatCalendarExporter.location self)) w) as Hdisk.
  split.
  - intros f e Hin Hf.
    destruct (events_loop_raises _ (ManVFatCalender.__init__ (ManVFatCalendarExporter.team self)
                (ManVFatCalendarExporter.location self)) w f e Hin Hf) as [e' He'].
    rewrite export_to_ical_eq.
    destruct (ManVFatCalendarExporter.events_loop _ _ w) as [w' [cal|e'']];
      simpl in *; [discriminate|eauto].
  - destruct (ManVFatCalendarExporter.events_loop (ManVFatCalendarExporter.fixtures self) _ w)
      as [w' [cal|e]] eqn:E; simpl in Hdisk.
    + right. exists w', cal. split; [done|]. split; [done|].
      pose proof E as (_ & _ & _ & events & Hsub & HF)%events_loop_ok. simpl in Hsub.
      rewrite Hsub. split; [done|].
      unfold ManVFatCalendarExporter.export_to_ical, io_bind. by rewrite E.
    + left. rewrite export_to_ical_eq, E. simpl. eauto.
Qed.

Lemma export_is_all_or_nothing_witness :
  let self := ManVFatCalendarExporter.mk ManVFatCalendarExporter.venue "Oldbury" (Some "out")
                [Example.fixture; Example.last_fixture] in
  let run := @ManVFatCalendarExporter.export_to_ical _ (Recording.platform 200 Example.soup)
               self "MyCalendar.ics" (mk_world [] 0) in
  disk (fst run) = [] /\ exists e', snd run = Raise e'.
Proof.
  intros self run.
  apply (proj1 (@export_is_all_or_nothing _ (Recording.platform 200 Example.soup)
                  self "MyCalendar.ics" (mk_world [] 0)) Example.last_fixture OverflowError).
  - apply list_elem_of_In. right. left. reflexivity.
  - vm_compute; reflexivity.
Defined.

(** C10. Order is kept from the page to the file. The fixtures the filter
    returns are the fixtures of the records for the team, in the order of
    the records; and an export that ends normally has written the
    serialisation of a calendar whose events are those of the fixtures,
    in the order of the fixtures. *)
Theorem order_is_preserved {fs : Type} {P : Platform fs}
    (self_team location filename : string) (export_path : option string)
    (raws : list (gmap string (option string))) (matches : list MatchFixture.t)
    (w w' : world fs) :
  ManVFatConnector.team_fixtures_loop self_team raws [] = Ok matches ->
  ManVFatCalendarExporter.export_to_ical
    (ManVFatCalendarExporter.mk location self_team export_path matches) filename w
    = (w', Ok tt) ->
  Forall2 (fun r f => ManVFatConnector.team_fixture self_team r = Ok (Some f))
          (List.filter (for_team self_team) raws) matches
  /\ exists cal p d,
       Forall2 (fun f event => exists ev n,
                  ManVFatCalendarExporter.fixture_event f = Ok ev /\
                  event = stamped (Icalendar.vText location) (uuid4 n) ev)
               matches (Icalendar.subcomponents cal)
       /\ export_path = Some p
       /\ write_binary d (path_join (path_join p "MyCalendar") filename) (to_ical cal)
          = (disk w', Ok tt).
Proof.
  intros Hloop Hexport. split.
  - eapply team_fixtures_loop_filter in Hloop as (new & -> & HF); [exact HF|]. done.
  - apply export_to_ical_ok in Hexport as (w1 & cal & p & d & Hev & Hp & Hw). simpl in *.
    apply events_loop_ok in Hev as (_ & _ & _ & events & Hsub & HF). simpl in *.
    exists (ManVFatCalender.cal cal), p, d. rewrite Hsub. done.
Qed.

Lemma order_is_preserved_witness :
  let P := Recording.platform 200 Example.soup in
  let raws := [Example.raw "Oldbury" "Rivals FC" "Tuesday 14 May" "19:45";
               Example.raw "Albion" "Rivals FC" "Tuesday 14 May" "19:45";
               Example.raw "Albion" "Oldbury" "Tuesday 21 May" "20:15"] in
  let matches := [MatchFixture.mk (Some "Oldbury") (Some "Rivals FC") true Example.start;
                  MatchFixture.mk (Some "Albion") (Some "Oldbury") false
                    (Datetime.mk_datetime 1900 5 21 20 15 0 0)] in
  @ManVFatCalendarExporter.export_to_ical _ P
    (ManVFatCalendarExporter.mk ManVFatCalendarExporter.venue "Oldbury" (Some "out") matches)
    "MyCalendar.ics" (mk_world [] 0)
  = (mk_world [Recording.Makedirs "out/MyCalendar";
               Recording.Write "out/MyCalendar/MyCalendar.ics"
                 "Oldbury vs Rivals FC 19:45-20:15;Oldbury vs Albion 20:15-20:45;"] 2,
     Ok tt)
  /\ Forall2 (fun r f => ManVFatConnector.team_fixture "Oldbury" r = Ok (Some f))
             (List.filter (for_team "Oldbury") raws) matches.
Proof.
  intros P raws matches. split; [vm_compute; reflexivity|].
  apply (@order_is_preserved _ P "Oldbury" ManVFatCalendarExporter.venue "MyCalendar.ics"
           (Some "out") raws matches (mk_world [] 0)
           (mk_world [Recording.Makedirs "out/MyCalendar";
               Recording.Write "out/MyCalendar/MyCalendar.ics"
                 "Oldbury vs Rivals FC 19:45-20:15;Oldbury vs Albion 20:15-20:45;"] 2));
    vm_compute; reflexivity.
Defined.

(** * Further properties *)

(** ** Extraction and the errors of the fetch *)

Section MoreExtraction.
Import ManVFatConnector.

Lemma li_match_record_of li r : li_match li = Ok r -> record_of li r.
Proof.
  unfold li_match, bind, dot_string, record_of.
  destruct (team_element li) as [t|]; [|discriminate].
  destruct (date_element li) as [d|]; [|discriminate].
  destruct (opponent_element li) as [o|]; [|discriminate].
  destruct (time_element li) as [ti|]; [|discriminate].
  intros [= <-]. eauto 10.
Qed.

Lemma record_of_well_keyed li r : record_of li r -> well_keyed r.
Proof.
  intros (t & d & o & ti & _ & _ & _ & _ & ->).
  unfold well_keyed. repeat split; by simplify_map_eq.
Qed.

Lemma fixtures_loop_ok lis : forall acc out,
  fixtures_loop lis acc = Ok out ->
  exists new, out = (acc ++ new)%list /\ Forall2 record_of lis new.
Proof.
  induction lis as [|li lis IH]; intros acc out; simpl.
  - intros [= <-]. exists []. by rewrite app_nil_r.
  - unfold bind. destruct (li_match li) as [r|] eqn:E; [|discriminate].
    intros (new & -> & HF)%IH. exists (r :: new). rewrite <- app_assoc. split; [done|].
    constructor; auto using li_match_record_of.
Qed.

Lemma get_fixtures_of_soup_ok soup container raws :
  Bs4.find "div" [("id", "upcomingfixtures")] soup = Some container ->
  get_fixtures_of_soup soup = Ok raws ->
  Forall2 record_of (Bs4.find_all "li" [] container) raws.
Proof.
  unfold get_fixtures_of_soup. intros ->.
  destruct (Bs4.find_all "li" [] container) as [|li lis] eqn:E.
  - intros [= <-]. constructor.
  - by intros (new & -> & HF)%fixtures_loop_ok.
Qed.

Lemma get_fixtures_of_soup_well_keyed soup raws :
  get_fixtures_of_soup soup = Ok raws -> Forall well_keyed raws.
Proof.
  destruct (Bs4.find "div" [("id", "upcomingfixtures")] soup) as [c|] eqn:E.
  - intros HF%(get_fixtures_of_soup_ok _ c); [|done].
    induction HF; constructor; eauto using record_of_well_keyed.
  - unfold get_fixtures_of_soup. rewrite E. intros [= <-]. constructor.
Qed.

Lemma get_fixtures_of_soup_raises soup e :
  get_fixtures_of_soup soup = Raise e -> e = AttributeError.
Proof.
  unfold get_fixtures_of_soup.
  destruct (Bs4.find _ _ soup); [|discriminate].
  destruct (Bs4.find_all _ _ _) eqn:E; [discriminate|].
  apply fixtures_loop_raises.
Qed.

Lemma strptime_raises s e : Strptime.strptime s = Raise e -> e = ValueError.
Proof.
  unfold Strptime.strptime, Strptime._strptime, bind, Strptime.index_or_raise,
    Datetime.date_toordinal, Datetime.new.
  repeat case_match; congruence.
Qed.

Lemma init_raises t o h d ti e :
  MatchFixture.__init__ t o h d ti = Raise e -> e = ValueError.
Proof.
  unfold MatchFixture.__init__, MatchFixture.__parse_datetime, bind.
  destruct (Strptime.strptime _) eqn:E; [discriminate|].
  intros [= <-]. eauto using strptime_raises.
Qed.

Lemma team_fixture_raises self_team r e :
  well_keyed r -> team_fixture self_team r = Raise e -> e = ValueError.
Proof.
  intros ([t Ht] & [o Ho] & [d Hd] & [ti Hti]).
  unfold team_fixture, getitem, bind. rewrite Ht, Ho, Hd, Hti.
  case_bool_decide.
  - destruct (MatchFixture.__init__ t o true d ti) eqn:E; [discriminate|].
    intros [= <-]. eauto using init_raises.
  - case_bool_decide; [|discriminate].
    destruct (MatchFixture.__init__ t o false d ti) eqn:E; [discriminate|].
    intros [= <-]. eauto using init_raises.
Qed.

Lemma team_fixtures_loop_raises self_team raws : forall acc e,
  Forall well_keyed raws ->
  team_fixtures_loop self_team raws acc = Raise e -> e = ValueError.
Proof.
  induction raws as [|r raws IH]; intros acc e HF; simpl; [discriminate|].
  inversion HF as [|? ? Hr Hraws]; subst. unfold bind.
  destruct (team_fixture self_team r) as [[f|]|e'] eqn:E; eauto.
  intros [= <-]. eauto using team_fixture_raises.
Qed.
End MoreExtraction.

(** X1. When the container is present and extraction returns, it returns
    one record per list item of the container, in document order; each
    record holds the [.string] of the four elements of its item, under
    exactly the keys team, date, opponent and time. *)
Theorem extraction_gives_one_record_per_item (soup container : Bs4.node)
    (raws : list (gmap string (option string))) :
  Bs4.find "div" [("id", "upcomingfixtures")] soup = Some container ->
  ManVFatConnector.get_fixtures_of_soup soup = Ok raws ->
  Forall2 record_of (Bs4.find_all "li" [] container) raws
  /\ Forall (fun r => dom r = ({["team"; "date"; "opponent"; "time"]} : gset string)) raws.
Proof.
  intros Hc Hok. pose proof (get_fixtures_of_soup_ok _ _ _ Hc Hok) as HF.
  split; [exact HF|]. clear Hc Hok.
  induction HF as [|li r lis rs Hr _ IH]; constructor; [|done].
  destruct Hr as (t & d & o & ti & _ & _ & _ & _ & ->).
  rewrite !dom_insert_L, dom_empty_L. set_solver.
Qed.

(** X3. Whatever [get_team_fixtures] raises is either what the request
    itself raised, or [HTTPError] from the status check, or what the HTML
    parser raised on the page that was fetched, or [AttributeError] from the
    extraction, or [ValueError] from the date parser: the records the
    extraction builds never make the filter raise [KeyError]. *)
Theorem fetch_and_filter_errors {fs : Type} {P : Platform fs}
    (self : ManVFatConnector.t) (e : exn) :
  ManVFatConnector.get_team_fixtures self = Raise e ->
  requests_get (ManVFatConnector.page_url self) ManVFatConnector.get_request_headers = Raise e
  \/ e = HTTPError
  \/ (exists resp,
        requests_get (ManVFatConnector.page_url self) ManVFatConnector.get_request_headers
          = Ok resp
        /\ html_parser (text resp) = Raise e)
  \/ e = AttributeError \/ e = ValueError.
Proof.
  unfold ManVFatConnector.get_team_fixtures, ManVFatConnector.__get_fixtures,
    ManVFatConnector.get_page_content, bind.
  destruct (requests_get _ _) as [resp|e0]; [|intros [= <-]; by left].
  destruct (ManVFatConnector.raise_for_status resp) as [[]|e0] eqn:Es.
  - destruct (html_parser (text resp)) as [soup|e0] eqn:Ep.
    + destruct (ManVFatConnector.get_fixtures_of_soup soup) as [raws|e1] eqn:E.
      * intros Hl. do 4 right.
        eapply team_fixtures_loop_raises; [|exact Hl].
        eauto using get_fixtures_of_soup_well_keyed.
      * intros [= <-]. do 3 right. left. eauto using get_fixtures_of_soup_raises.
    + intros [= <-]. do 2 right. left. eauto.
  - intros [= <-]. right. left.
    unfold ManVFatConnector.raise_for_status in Es. case_match; congruence.
Qed.

(** ** The filter *)

Section MoreFilter.
Import ManVFatConnector.

Lemma team_fixture_not_for_team self_team r :
  well_keyed r -> for_team self_team r = false -> team_fixture self_team r = Ok None.
Proof.
  intros ([t Ht] & [o Ho] & _) Hf. unfold for_team in Hf. rewrite Ht, Ho in Hf.
  apply orb_false_iff in Hf as [H1 H2].
  apply bool_decide_eq_false in H1. apply bool_decide_eq_false in H2.
  unfold team_fixture, getitem, bind. rewrite Ht, Ho.
  rewrite !bool_decide_false; [done| |]; congruence.
Qed.

Lemma team_fixtures_loop_skips self_team raws : forall acc,
  Forall well_keyed raws ->
  team_fixtures_loop self_team raws acc
  = team_fixtures_loop self_team (List.filter (for_team self_team) raws) acc.
Proof.
  induction raws as [|r raws IH]; intros acc HF; simpl; [done|].
  inversion HF as [|? ? Hr Hraws]; subst.
  destruct (for_team self_team r) eqn:E; simpl.
  - unfold bind. destruct (team_fixture self_team r) as [[f|]|]; auto.
  - rewrite (team_fixture_not_for_team _ _ Hr E). simpl. auto.
Qed.

Lemma team_fixture_unparseable self_team r d ti e :
  well_keyed r -> for_team self_team r = true ->
  r !! "date" = Some d -> r !! "time" = Some ti ->
  MatchFixture.__parse_datetime d ti = Raise e ->
  team_fixture self_team r = Raise ValueError.
Proof.
  intros ([t Ht] & [o Ho] & _) Hf Hd Hti Hp.
  unfold for_team in Hf. rewrite Ht, Ho in Hf.
  unfold team_fixture, getitem, bind. rewrite Ht, Ho, Hd, Hti.
  unfold MatchFixture.__init__, bind. rewrite Hp.
  assert (e = ValueError) as -> by (eapply strptime_raises; exact Hp).
  apply orb_true_iff in Hf. rewrite !bool_decide_eq_true in Hf.
  destruct Hf as [[= ->]|[= ->]].
  - by rewrite bool_decide_true.
  - rewrite (bool_decide_true (Some self_team = Some self_team)) by done.
    by case_bool_decide.
Qed.
End MoreFilter.

(** X2. When the schedule block of a parsed list item holds fewer than two
    match-time candidates, the time field is the [.string] of the schedule
    block itself. *)
Theorem fewer_than_two_candidates_reads_the_block (li sched : Bs4.node)
    (m : gmap string (option string)) :
  Bs4.find "div" [("class", "schedule")] li = Some sched ->
  length (Bs4.find_all "span" [("class", "match-time")] sched) < 2 ->
  ManVFatConnector.li_match li = Ok m ->
  m !! "time" = Some (Bs4.string sched).
Proof.
  intros Hs Hlen (e & He & Hm)%li_match_time.
  unfold ManVFatConnector.time_element in He. rewrite Hs in He.
  destruct (Bs4.find_all _ _ sched) as [|? [|? ?]]; simpl in Hlen; try lia;
    by injection He as <-.
Qed.

(** X4. Records that are not for the team have no effect on the filter,
    whatever their date and time: on records that carry the four keys, the
    filter gives what it gives on the records for the team alone. *)
Theorem filter_ignores_other_records (self_team : string)
    (raws : list (gmap string (option string))) :
  Forall well_keyed raws ->
  ManVFatConnector.team_fixtures_loop self_team raws []
  = ManVFatConnector.team_fixtures_loop self_team (List.filter (for_team self_team) raws) [].
Proof. apply team_fixtures_loop_skips. Qed.

(** X5. One record for the team whose date and time the parser rejects makes
    the whole filter raise [ValueError]; no list is returned. *)
Theorem unparseable_team_record_aborts_filter (self_team : string)
    (raws : list (gmap string (option string))) (r : gmap string (option string))
    (d ti : option string) (e : exn) :
  Forall well_keyed raws ->
  r ∈ raws ->
  for_team self_team r = true ->
  r !! "date" = Some d -> r !! "time" = Some ti ->
  MatchFixture.__parse_datetime d ti = Raise e ->
  ManVFatConnector.team_fixtures_loop self_team raws [] = Raise ValueError.
Proof.
  intros HF Hin Hf Hd Hti Hp.
  pose proof (team_fixture_unparseable self_team r d ti e) as Hr.
  generalize (@nil MatchFixture.t). induction raws as [|x raws IH]; intros acc.
  - inversion Hin.
  - inversion HF as [|? ? Hx Hraws]; subst. simpl. unfold bind.
    destruct (ManVFatConnector.team_fixture self_team x) as [[f|]|e'] eqn:E.
    + apply elem_of_cons in Hin as [->|Hin]; [|eauto].
      rewrite Hr in E; done.
    + apply elem_of_cons in Hin as [->|Hin]; [|eauto].
      rewrite Hr in E; done.
    + f_equal. eauto using team_fixture_raises.
Qed.

(** X6. Every fixture the filter returns has a title that begins with the
    configured team name: "{team} vs {other}", where the other side is the
    opponent slot of a home fixture and the team slot of an away fixture. *)
Theorem titles_begin_with_the_team (self_team : string)
    (raws : list (gmap string (option string))) (out : list MatchFixture.t) :
  ManVFatConnector.team_fixtures_loop self_team raws [] = Ok out ->
  Forall (fun f => exists other : option string,
            MatchFixture.get_title f = self_team ++ " vs " ++ py_str other
            /\ (MatchFixture.home f = true /\ MatchFixture.team f = Some self_team
                                          /\ other = MatchFixture.opponent f
                \/ MatchFixture.home f = false /\ MatchFixture.opponent f = Some self_team
                                             /\ other = MatchFixture.team f))
         out.
Proof.
  intros Hloop.
  eapply team_fixtures_loop_filter in Hloop as (new & -> & HF).
  2:{ intros r f Hrf. exact Hrf. }
  simpl. induction HF as [|r f rs fs Hrf _ IH]; constructor; [|done].
  apply team_fixture_inv in Hrf as (t & o & _ & _ & d & ti & _ & _ & Hmatch & Hinit).
  unfold MatchFixture.__init__, bind in Hinit.
  destruct (MatchFixture.__parse_datetime d ti); [|discriminate]. injection Hinit as <-.
  unfold MatchFixture.get_title. simpl. case_bool_decide as Ht.
  - subst t. exists o. split; [done|]. left. done.
  - destruct Hmatch as [? | ->]; [done|]. exists t. split; [done|]. right. done.
Qed.

(** ** The parser *)

Section MoreParsing.
Import Strptime.

Lemma ends_with_digit_app a b :
  b <> "" -> ends_with_digit (a ++ b) = ends_with_digit b.
Proof.
  intros Hb. induction a as [|c a IH]; simpl; [done|].
  destruct (a ++ b) eqn:E; [|done].
  destruct a; [change (b = "") in E; congruence|].
  change (String a (a0 ++ b) = "") in E. discriminate.
Qed.

Lemma append_cons c a b : String c a ++ b = String c (a ++ b).
Proof. reflexivity. Qed.

Lemma literal_splits pat : splits (literal pat).
Proof.
  induction pat as [|p pat IH]; intros s m rest; simpl.
  - intros [[= <- <-]|[]]. done.
  - destruct s as [|c s]; [intros []|].
    destruct (Ascii.eqb (lower_char c) p); [|intros []].
    intros ([m' r'] & [= <- <-] & Hin)%in_map_iff. simpl. rewrite append_cons. f_equal. eauto.
Qed.

Lemma classes_splits cs : splits (classes cs).
Proof.
  induction cs as [|p cs IH]; intros s m rest; simpl.
  - intros [[= <- <-]|[]]. done.
  - destruct s as [|c s]; [intros []|].
    destruct (p c); [|intros []].
    intros ([m' r'] & [= <- <-] & Hin)%in_map_iff. simpl. rewrite append_cons. f_equal. eauto.
Qed.

Lemma alt_splits rs : Forall splits rs -> splits (alt rs).
Proof.
  intros HF s m rest (r & Hr & Hin)%in_flat_map.
  rewrite Forall_forall in HF. eapply HF; eauto. by apply list_elem_of_In.
Qed.

Lemma spaces_splits : splits spaces.
Proof.
  intros s. induction s as [|c s IH]; intros m rest; simpl; [intros []|].
  destruct (is_space c); [|intros []].
  intros [([m' r'] & [= <- <-] & Hin)%in_map_iff|[[= <- <-]|[]]]%in_app_iff; simpl.
  - rewrite append_cons. f_equal. eauto.
  - done.
Qed.

Lemma seqToRE_splits names : splits (__seqToRE names).
Proof.
  apply alt_splits, Forall_forall. intros r Hr%list_elem_of_In.
  apply in_map_iff in Hr as (pat & <- & _). apply literal_splits.
Qed.

Lemma re_d_splits : splits re_d.
Proof. apply alt_splits. repeat constructor; apply classes_splits. Qed.

Lemma re_H_splits : splits re_H.
Proof. apply alt_splits. repeat constructor; apply classes_splits. Qed.

(** A complete match of the minutes group leaves a text ending in a digit. *)
Lemma re_M_complete s m : In (m, "") (re_M s) -> ends_with_digit s = true.
Proof.
  unfold re_M, alt.
  destruct s as [|c1 [|c2 s]]; cbn [classes flat_map List.map app ends_with_digit].
  - intros [].
  - destruct (in_range "0" "5" c1), (is_digit c1);
      cbn [classes flat_map List.map app fst snd]; intros H; try done;
      repeat destruct H as [H|H]; try done.
  - destruct (in_range "0" "5" c1), (is_digit c1) eqn:E1, (is_digit c2) eqn:E2;
      cbn [classes flat_map List.map app fst snd]; intros H;
      repeat destruct H as [H|H]; try done; try (destruct s; done).
Qed.

(** A text matched to its end by the whole expression ends in a digit. *)
Lemma format_regex_complete s found :
  In (found, "") (format_regex s) -> ends_with_digit s = true.
Proof.
  unfold format_regex.
  intros ([a s1] & Ha & H1)%in_flat_map.
  apply in_flat_map in H1 as ([x1 s2] & Hx1 & H2).
  apply in_flat_map in H2 as ([d s3] & Hd & H3).
  apply in_flat_map in H3 as ([x2 s4] & Hx2 & H4).
  apply in_flat_map in H4 as ([b s5] & Hb & H5).
  apply in_flat_map in H5 as ([x3 s6] & Hx3 & H6).
  apply in_flat_map in H6 as ([h s7] & Hh & H7).
  apply in_flat_map in H7 as ([x4 s8] & Hx4 & H8).
  apply in_map_iff in H8 as ([m r] & [= _ ->] & Hm).
  apply re_M_complete in Hm.
  assert (Hne : forall t, ends_with_digit t = true -> t <> "") by (by intros [|]).
  apply (classes_splits [chr ":"]) in Hx4 as ->.
  rewrite <- ends_with_digit_app with (a := x4) in Hm by auto.
  apply re_H_splits in Hh as ->.
  rewrite <- ends_with_digit_app with (a := h) in Hm by auto.
  apply spaces_splits in Hx3 as ->.
  rewrite <- ends_with_digit_app with (a := x3) in Hm by auto.
  apply seqToRE_splits in Hb as ->.
  rewrite <- ends_with_digit_app with (a := b) in Hm by auto.
  apply spaces_splits in Hx2 as ->.
  rewrite <- ends_with_digit_app with (a := x2) in Hm by auto.
  apply re_d_splits in Hd as ->.
  rewrite <- ends_with_digit_app with (a := d) in Hm by auto.
  apply spaces_splits in Hx1 as ->.
  rewrite <- ends_with_digit_app with (a := x1) in Hm by auto.
  apply seqToRE_splits in Ha as ->.
  rewrite <- ends_with_digit_app with (a := a) in Hm by auto.
  exact Hm.
Qed.

Lemma strptime_ends_with_digit s dt :
  strptime s = Ok dt -> ends_with_digit s = true.
Proof.
  unfold strptime, _strptime, bind.
  destruct (format_regex s) as [|[found rest] l] eqn:E; [discriminate|].
  destruct rest; [|discriminate]. intros _.
  apply (format_regex_complete s found). rewrite E. by left.
Qed.

Lemma strptime_None_date t : strptime ("None " ++ t) = Raise ValueError.
Proof. reflexivity. Qed.
End MoreParsing.

(** X7. A date or a time that is [None] (an element without a single string)
    is formatted as the text "None", which the parser rejects with
    [ValueError]. *)
Theorem missing_text_is_rejected (date time : option string) :
  date = None \/ time = None ->
  MatchFixture.__parse_datetime date time = Raise ValueError.
Proof.
  unfold MatchFixture.__parse_datetime. intros [-> | ->].
  - apply strptime_None_date.
  - destruct (Strptime.strptime _) as [dt|e] eqn:E.
    + apply strptime_ends_with_digit in E.
      rewrite ends_with_digit_app in E by done. rewrite ends_with_digit_app in E by done.
      discriminate.
    + f_equal. eauto using strptime_raises.
Qed.

(** X8. Every timestamp the fixture parser returns has a month from 1 to 12,
    a day that exists in that month of 1900, an hour from 0 to 23, a minute
    from 0 to 59, and no seconds or microseconds; it is never 29 February. *)
Theorem parsed_fields_are_valid (date time : option string) (dt : Datetime.datetime) :
  MatchFixture.__parse_datetime date time = Ok dt ->
  (1 <= Datetime.month dt <= 12)%Z /\
  (1 <= Datetime.day dt <= Datetime._days_in_month 1900 (Datetime.month dt))%Z /\
  (0 <= Datetime.hour dt <= 23)%Z /\ (0 <= Datetime.minute dt <= 59)%Z /\
  Datetime.second dt = 0%Z /\ Datetime.microsecond dt = 0%Z /\
  ~ (Datetime.month dt = 2%Z /\ Datetime.day dt = 29%Z).
Proof.
  unfold MatchFixture.__parse_datetime, Strptime.strptime, bind.
  destruct (Strptime._strptime _) as [[[[[[[y m] d] h] mi] sec] wd]|] eqn:E; [|discriminate].
  apply _strptime_year in E as [-> ->]. unfold Datetime.new.
  destruct (Datetime._check_date_fields 1900 m d && _) eqn:Hc; [|discriminate].
  intros [= <-]. simpl.
  unfold Datetime._check_date_fields, Datetime._check_time_fields in Hc.
  repeat (apply andb_prop in Hc as [Hc ?]).
  assert (Hdm : (d <= Datetime._days_in_month 1900 m)%Z) by lia.
  repeat split; try lia.
  intros [-> ->]. vm_compute in Hdm. done.
Qed.

Section CaseAndWeekday.
Import Strptime.

Lemma map_flat_map {A B C} (g : B -> C) (f : A -> list B) l :
  List.map g (flat_map f l) = flat_map (fun x => List.map g (f x)) l.
Proof. induction l as [|x l IH]; simpl; [done|]. by rewrite map_app, IH. Qed.

Lemma flat_map_map {A B C} (g : A -> B) (f : B -> list C) l :
  flat_map f (List.map g l) = flat_map (fun x => f (g x)) l.
Proof. induction l as [|x l IH]; simpl; [done|]. by rewrite IH. Qed.

Ltac by_cases_on c :=
  destruct c as [[] [] [] [] [] [] [] []]; vm_compute; (split; [reflexivity|]); intros H;
  first [reflexivity | discriminate H].

Lemma lower_char_idem c : lower_char (lower_char c) = lower_char c.
Proof. destruct c as [[] [] [] [] [] [] [] []]; reflexivity. Qed.

Lemma lower_idem s : lower (lower s) = lower s.
Proof. induction s as [|c s IH]; simpl; [done|]. by rewrite lower_char_idem, IH. Qed.

Lemma lower_app a b : lower (a ++ b) = lower a ++ lower b.
Proof. induction a as [|c a IH]; [done|]. rewrite append_cons. simpl. by rewrite IH. Qed.

Lemma lower_nil s : lower s = "" <-> s = "".
Proof. destruct s; simpl; split; congruence. Qed.

Lemma caseless_is_digit : caseless is_digit.
Proof. intros c. by_cases_on c. Qed.
Lemma caseless_is_space : caseless is_space.
Proof. intros c. by_cases_on c. Qed.
Lemma caseless_0_1 : caseless (in_range "0" "1").
Proof. intros c. by_cases_on c. Qed.
Lemma caseless_1_2 : caseless (in_range "1" "2").
Proof. intros c. by_cases_on c. Qed.
Lemma caseless_1_9 : caseless (in_range "1" "9").
Proof. intros c. by_cases_on c. Qed.
Lemma caseless_0_3 : caseless (in_range "0" "3").
Proof. intros c. by_cases_on c. Qed.
Lemma caseless_0_5 : caseless (in_range "0" "5").
Proof. intros c. by_cases_on c. Qed.
Lemma caseless_chr_0 : caseless (chr "0").
Proof. intros c. by_cases_on c. Qed.
Lemma caseless_chr_2 : caseless (chr "2").
Proof. intros c. by_cases_on c. Qed.
Lemma caseless_chr_3 : caseless (chr "3").
Proof. intros c. by_cases_on c. Qed.
Lemma caseless_chr_space : caseless (chr " ").
Proof. intros c. by_cases_on c. Qed.
Lemma caseless_chr_colon : caseless (chr ":").
Proof. intros c. by_cases_on c. Qed.

Lemma literal_lower pat : forall s, literal pat (lower s) = List.map low (literal pat s).
Proof.
  induction pat as [|p pat IH]; intros s; [done|].
  destruct s as [|c s]; [done|]. simpl. rewrite lower_char_idem.
  destruct (Ascii.eqb (lower_char c) p); [|done].
  rewrite IH, !map_map. by apply map_ext.
Qed.

Lemma classes_lower cs : Forall caseless cs ->
  forall s, classes cs (lower s) = List.map keep (classes cs s).
Proof.
  induction 1 as [|p cs Hp _ IH]; intros s; [done|].
  destruct s as [|c s]; [done|]. simpl. destruct (Hp c) as [-> Hfix].
  destruct (p c); [|done]. rewrite Hfix by done.
  rewrite IH, !map_map. by apply map_ext.
Qed.

Lemma spaces_lower s : spaces (lower s) = List.map keep (spaces s).
Proof.
  induction s as [|c s IH]; [done|]. simpl.
  destruct (caseless_is_space c) as [-> Hfix].
  destruct (is_space c); [|done]. rewrite Hfix by done.
  rewrite map_app, IH, !map_map. simpl. f_equal; by apply map_ext.
Qed.

Lemma alt_lower {f} rs : 
  Forall (fun r : re => forall s, r (lower s) = List.map f (r s)) rs ->
  forall s, alt rs (lower s) = List.map f (alt rs s).
Proof.
  intros HF s. unfold alt. rewrite map_flat_map.
  induction HF as [|r rs Hr _ IH]; simpl; [done|]. by rewrite Hr, IH.
Qed.

Lemma seqToRE_lower names s : __seqToRE names (lower s) = List.map low (__seqToRE names s).
Proof.
  apply alt_lower, Forall_forall. intros r Hr%list_elem_of_In.
  apply in_map_iff in Hr as (pat & <- & _). apply literal_lower.
Qed.

Lemma caseless_all cs :
  Forall caseless cs -> forall s, classes cs (lower s) = List.map keep (classes cs s).
Proof. apply classes_lower. Qed.

Ltac caseless_classes :=
  apply classes_lower;
  repeat (apply List.Forall_cons;
          [first [apply caseless_is_digit | apply caseless_0_1 | apply caseless_1_2
                 | apply caseless_1_9 | apply caseless_0_3 | apply caseless_0_5
                 | apply caseless_chr_0 | apply caseless_chr_2 | apply caseless_chr_3
                 | apply caseless_chr_space | apply caseless_chr_colon]|]);
  apply List.Forall_nil.

Lemma re_d_lower s : re_d (lower s) = List.map keep (re_d s).
Proof.
  apply (alt_lower (f:=keep)). repeat (apply List.Forall_cons; [caseless_classes|]).
  apply List.Forall_nil.
Qed.

Lemma re_H_lower s : re_H (lower s) = List.map keep (re_H s).
Proof.
  apply (alt_lower (f:=keep)). repeat (apply List.Forall_cons; [caseless_classes|]).
  apply List.Forall_nil.
Qed.

Lemma re_M_lower s : re_M (lower s) = List.map keep (re_M s).
Proof.
  apply (alt_lower (f:=keep)). repeat (apply List.Forall_cons; [caseless_classes|]).
  apply List.Forall_nil.
Qed.

Lemma colon_lower s :
  classes [chr ":"] (lower s) = List.map keep (classes [chr ":"] s).
Proof. caseless_classes. Qed.

Lemma format_regex_unfold s :
  format_regex s = flat_map (fun '(a, s) => after_weekday a s) (re_A s).
Proof. reflexivity. Qed.

Lemma format_regex_lower s :
  format_regex (lower s) = List.map lower_names (format_regex s).
Proof.
  unfold format_regex, re_A, re_B.
  rewrite seqToRE_lower, flat_map_map, map_flat_map. apply flat_map_ext. intros [a s1].
  cbn [low fst snd].
  rewrite spaces_lower, flat_map_map, map_flat_map. apply flat_map_ext. intros [x1 s2].
  cbn [keep fst snd].
  rewrite re_d_lower, flat_map_map, map_flat_map. apply flat_map_ext. intros [d s3].
  cbn [keep fst snd].
  rewrite spaces_lower, flat_map_map, map_flat_map. apply flat_map_ext. intros [x2 s4].
  cbn [keep fst snd].
  rewrite seqToRE_lower, flat_map_map, map_flat_map. apply flat_map_ext. intros [b s5].
  cbn [low fst snd].
  rewrite spaces_lower, flat_map_map, map_flat_map. apply flat_map_ext. intros [x3 s6].
  cbn [keep fst snd].
  rewrite re_H_lower, flat_map_map, map_flat_map. apply flat_map_ext. intros [h s7].
  cbn [keep fst snd].
  rewrite colon_lower, flat_map_map, map_flat_map. apply flat_map_ext. intros [x4 s8].
  cbn [keep fst snd].
  rewrite re_M_lower, !map_map. apply map_ext. by intros [m s9].
Qed.

Lemma _strptime_lower s : _strptime (lower s) = _strptime s.
Proof.
  unfold _strptime. rewrite format_regex_lower.
  destruct (format_regex s) as [|[found rest] l]; [done|]. simpl.
  rewrite !lower_idem. by destruct rest.
Qed.

Lemma strptime_lower s : strptime (lower s) = strptime s.
Proof. unfold strptime. by rewrite _strptime_lower. Qed.
End CaseAndWeekday.

Section Weekday.
Import Strptime.

Lemma after_weekday_group a s :
  after_weekday a s
  = List.map (fun x => (mk_found a (group_d (fst x)) (group_B (fst x)) (group_H (fst x))
                          (group_M (fst x)), snd x))
             (after_weekday "" s).
Proof.
  unfold after_weekday.
  rewrite map_flat_map. apply flat_map_ext. intros [x1 s2].
  rewrite map_flat_map. apply flat_map_ext. intros [d s3].
  rewrite map_flat_map. apply flat_map_ext. intros [x2 s4].
  rewrite map_flat_map. apply flat_map_ext. intros [b s5].
  rewrite map_flat_map. apply flat_map_ext. intros [x3 s6].
  rewrite map_flat_map. apply flat_map_ext. intros [h s7].
  rewrite map_flat_map. apply flat_map_ext. intros [x4 s8].
  rewrite map_map. apply map_ext. by intros [m s9].
Qed.

(** After a weekday name and a blank, the timestamp is the one read from
    the rest of the text. *)
Lemma strptime_after_weekday n t :
  In n f_weekday ->
  strptime (n ++ " " ++ t) =
  match after_weekday "" (" " ++ t) with
  | [] => Raise ValueError
  | (found, String _ _) :: _ => Raise ValueError
  | (found, EmptyString) :: _ =>
      bind (index_or_raise (lower (group_B found)) f_month) (fun month =>
        let day := int (group_d found) in
        let leap_year_fix := ((month =? 2) && (day =? 29))%Z in
        bind (Datetime.date_toordinal (if leap_year_fix then 1904 else 1900) month day)
          (fun _ => Datetime.new 1900 month day (int (group_H found)) (int (group_M found)) 0 0))
  end.
Proof.
  intros Hn. unfold strptime, _strptime. rewrite format_regex_unfold.
  assert (HA : re_A (n ++ " " ++ t) = [(n, " " ++ t)]).
  { simpl in Hn. destruct Hn as [<-|[<-|[<-|[<-|[<-|[<-|[<-|[]]]]]]]]; reflexivity. }
  rewrite HA. cbn [flat_map]. rewrite app_nil_r, after_weekday_group.
  destruct (after_weekday "" (" " ++ t)) as [|[found rest] l]; [done|].
  cbn [List.map fst snd]. destruct rest; [|done].
  cbn [group_A group_B group_d group_H group_M].
  assert (HW : exists i, index_or_raise (lower n) f_weekday = Ok i).
  { simpl in Hn. destruct Hn as [<-|[<-|[<-|[<-|[<-|[<-|[<-|[]]]]]]]]; eexists; reflexivity. }
  destruct HW as [i ->]. unfold bind.
  destruct (index_or_raise (lower (group_B found)) f_month) as [month|]; [|done].
  destruct (Datetime.date_toordinal _ month _); [|done].
  by destruct ((month =? 2)%Z && _).
Qed.
End Weekday.

(** X9. The parser does not look at the case of letters: two dates and two
    times that differ in letter case only parse alike. *)
Theorem parsing_ignores_letter_case (date1 date2 time1 time2 : string) :
  Strptime.lower date1 = Strptime.lower date2 ->
  Strptime.lower time1 = Strptime.lower time2 ->
  MatchFixture.__parse_datetime (Some date1) (Some time1)
  = MatchFixture.__parse_datetime (Some date2) (Some time2).
Proof.
  intros Hd Ht. unfold MatchFixture.__parse_datetime, py_str.
  rewrite <- (strptime_lower (date1 ++ _)), <- (strptime_lower (date2 ++ _)).
  by rewrite !lower_app, Hd, Ht.
Qed.

Lemma string_app_assoc (a b c : string) : (a ++ b) ++ c = a ++ b ++ c.
Proof. induction a as [|x a IH]; [done|]. rewrite !append_cons. by rewrite IH. Qed.

(** X10. The weekday name is read and dropped: two dates that differ in
    their weekday names only parse alike, whatever follows the name. *)
Theorem weekday_name_is_not_checked (weekday1 weekday2 rest time : string) :
  In (Strptime.lower weekday1) Strptime.f_weekday ->
  In (Strptime.lower weekday2) Strptime.f_weekday ->
  MatchFixture.__parse_datetime (Some (weekday1 ++ " " ++ rest)) (Some time)
  = MatchFixture.__parse_datetime (Some (weekday2 ++ " " ++ rest)) (Some time).
Proof.
  intros H1 H2. unfold MatchFixture.__parse_datetime, py_str.
  rewrite <- (strptime_lower ((weekday1 ++ _) ++ _)), <- (strptime_lower ((weekday2 ++ _) ++ _)).
  rewrite !string_app_assoc, !(lower_app weekday1), !(lower_app weekday2), !(lower_app " ").
  change (Strptime.lower " ") with " ".
  by rewrite !strptime_after_weekday.
Qed.

Lemma weekday_name_is_not_checked_witness :
  MatchFixture.__parse_datetime (Some ("Tuesday" ++ " " ++ "14 May")) (Some "19:45")
  = MatchFixture.__parse_datetime (Some ("FRIDAY" ++ " " ++ "14 May")) (Some "19:45").
Proof.
  apply weekday_name_is_not_checked; vm_compute; auto 10.
Defined.

(** ** The events and the export *)

Section ParsedFixtures.
Import Datetime.
Local Open Scope Z_scope.

Lemma strptime_fields s dt :
  Strptime.strptime s = Ok dt ->
  year dt = 1900 /\ _check_date_fields 1900 (month dt) (day dt) = true /\
  _check_time_fields (hour dt) (minute dt) (second dt) (microsecond dt) = true /\
  second dt = 0 /\ microsecond dt = 0.
Proof.
  unfold Strptime.strptime, bind.
  destruct (Strptime._strptime s) as [[[[[[[y m] d] h] mi] sec] wd]|] eqn:E; [|discriminate].
  apply _strptime_year in E as [-> ->]. unfold new.
  destruct (_check_date_fields 1900 m d && _) eqn:Hc; [|discriminate].
  intros [= <-]. simpl. apply andb_prop in Hc as [? ?]. auto.
Qed.

Lemma ordinal_in_1900 m d :
  _check_date_fields 1900 m d = true -> 693596 <= _ymd2ord 1900 m d <= 693960.
Proof.
  unfold _check_date_fields. intros Hc. repeat (apply andb_prop in Hc as [Hc ?]).
  assert (Hm : m = 1 \/ m = 2 \/ m = 3 \/ m = 4 \/ m = 5 \/ m = 6 \/ m = 7 \/ m = 8
               \/ m = 9 \/ m = 10 \/ m = 11 \/ m = 12) by lia.
  assert (Hd : d <= _days_in_month 1900 m) by lia.
  assert (1 <= d) by lia. clear -Hm Hd H4.
  unfold _ymd2ord.
  destruct Hm as [->|[->|[->|[->|[->|[->|[->|[->|[->|[->|[->| ->]]]]]]]]]]];
    match type of Hd with context [_days_in_month 1900 ?k] =>
      let v := eval vm_compute in (_days_in_month 1900 k) in
      change (_days_in_month 1900 k) with v in Hd end;
    change (_days_before_year 1900) with 693595;
    match goal with |- context [_days_before_month 1900 ?k] =>
      let v := eval vm_compute in (_days_before_month 1900 k) in
      change (_days_before_month 1900 k) with v end;
    split; lia.
Qed.

(** Thirty minutes can always be added to a parsed timestamp. *)
Lemma add_thirty_minutes_parsed s dt :
  Strptime.strptime s = Ok dt -> exists dtend, add dt thirty_minutes = Ok dtend.
Proof.
  intros (Hy & Hd & Ht & Hs & Hus)%strptime_fields.
  apply ordinal_in_1900 in Hd.
  unfold _check_time_fields in Ht. repeat (apply andb_prop in Ht as [Ht ?]).
  unfold add, toordinal. rewrite Hy.
  match goal with |- context [if ?c then _ else _] => assert (Hc : c = true) end.
  { unfold thirty_minutes, timedelta_add, timedelta_new, _MAXORDINAL.
    cbn [days seconds microseconds]. rewrite Hs, Hus.
    apply andb_true_intro. split; [apply Z.ltb_lt|apply Z.leb_le];
      Z.div_mod_to_equations; lia. }
  rewrite Hc. destruct (_ord2ymd _) as [[y m] d]. eauto.
Qed.
End ParsedFixtures.

Section MoreExport.
Context {fs : Type} `{Platform fs}.
Import ManVFatCalendarExporter.

Lemma fixture_event_parsed t o h d ti f :
  MatchFixture.__init__ t o h d ti = Ok f -> is_ok (fixture_event f) = true.
Proof.
  unfold MatchFixture.__init__, MatchFixture.__parse_datetime, bind.
  destruct (Strptime.strptime _) as [dt|] eqn:E; [|discriminate]. intros [= <-].
  apply add_thirty_minutes_parsed in E as [dtend E].
  rewrite fixture_event_eq. simpl. by rewrite E.
Qed.

Lemma team_fixtures_loop_events self_team raws out :
  ManVFatConnector.team_fixtures_loop self_team raws [] = Ok out ->
  Forall (fun f => is_ok (fixture_event f) = true) out.
Proof.
  intros Hloop.
  eapply (team_fixtures_loop_filter self_team
            (fun _ f => is_ok (fixture_event f) = true)) in Hloop as (new & -> & HF).
  - simpl. clear -HF. induction HF; constructor; auto.
  - intros r f (t & o & _ & _ & d & ti & _ & _ & _ & Hinit)%team_fixture_inv.
    eauto using fixture_event_parsed.
Qed.
End MoreExport.

Section Identifiers.
Context {fs : Type} `{Platform fs}.
Import ManVFatCalendarExporter.

(** The events a loop appends: the fixtures' events, the [i]-th stamped
    with the [i]-th identifier drawn from the start of the loop. *)
Lemma events_loop_indexed fixtures : forall cal w w' cal',
  events_loop fixtures cal w = (w', Ok cal') ->
  exists events,
    Forall2 (fun f ev => fixture_event f = Ok ev) fixtures events /\
    Icalendar.subcomponents (ManVFatCalender.cal cal')
    = (Icalendar.subcomponents (ManVFatCalender.cal cal)
       ++ imap (fun i ev => stamped (ManVFatCalender.location cal) (uuid4 (drawn w + i)) ev)
               events)%list.
Proof.
  induction fixtures as [|f l IH]; intros cal w w' cal'; simpl.
  - unfold io_ret. intros [= <- <-]. exists []. split; [constructor|]. by rewrite app_nil_r.
  - unfold io_bind, io_lift. destruct (fixture_event f) as [event|] eqn:E; [|discriminate].
    unfold ManVFatCalender.add_event at 1.
    intros (events & HF & Hsub)%IH. simpl in *.
    exists (event :: events). split; [by constructor|].
    rewrite Hsub, <- app_assoc. simpl. rewrite Nat.add_0_r. do 2 f_equal.
    apply imap_ext. intros i ev _. simpl. do 2 f_equal. lia.
Qed.

Lemma Forall2_fixture_event_functional fixtures e1 e2 :
  Forall2 (fun f ev => fixture_event f = Ok ev) fixtures e1 ->
  Forall2 (fun f ev => fixture_event f = Ok ev) fixtures e2 -> e1 = e2.
Proof.
  intros H1. revert e2. induction H1 as [|f ev l evs Hf _ IH]; intros e2 H2.
  - by inversion H2.
  - inversion H2 as [|? ev' ? evs' Hf' Hl']; subst. f_equal; [congruence|auto].
Qed.

Lemma delete_uid_stamped location uid ev :
  delete "UID" (stamped location uid ev) = <["LOCATION" := location]> (delete "UID" ev).
Proof.
  unfold stamped, Icalendar.setitem.
  change (Icalendar.upper "location") with "LOCATION".
  change (Icalendar.upper "uid") with "UID".
  rewrite delete_insert_ne by done. by rewrite delete_insert_eq.
Qed.
End Identifiers.

(** X14. A loop that ends normally draws one identifier per fixture, and the
    [i]-th event of the calendar carries, as a plain string under UID, the
    [i]-th identifier drawn since the loop started. *)
Theorem identifiers_follow_the_draw {fs : Type} {P : Platform fs} (team location : string)
    (fixtures : list MatchFixture.t) (w w' : world fs) (cal' : ManVFatCalender.t) :
  ManVFatCalendarExporter.events_loop fixtures (ManVFatCalender.__init__ team location) w
    = (w', Ok cal') ->
  drawn w' = drawn w + length fixtures /\
  forall i event,
    Icalendar.subcomponents (ManVFatCalender.cal cal') !! i = Some event ->
    event !! "UID" = Some (Icalendar.PyStr (uuid4 (drawn w + i))).
Proof.
  intros Hloop. split.
  - apply events_loop_ok in Hloop as (-> & _). done.
  - apply events_loop_indexed in Hloop as (events & _ & Hsub). simpl in Hsub.
    intros i event. rewrite Hsub, list_lookup_imap.
    destruct (events !! i) as [ev|]; [|discriminate]. intros [= <-].
    unfold stamped, Icalendar.setitem.
    change (Icalendar.upper "location") with "LOCATION".
    change (Icalendar.upper "uid") with "UID".
    by simplify_map_eq.
Qed.

(** X15. Two runs of the loop over the same fixtures, on any two platforms
    and from any two states, build calendars with the same properties and
    with events that are equal once their UID is removed. *)
Theorem runs_differ_only_in_identifiers {fs1 fs2 : Type} {P1 : Platform fs1}
    {P2 : Platform fs2} (team location : string) (fixtures : list MatchFixture.t)
    (w1 w1' : world fs1) (w2 w2' : world fs2) (cal1 cal2 : ManVFatCalender.t) :
  @ManVFatCalendarExporter.events_loop _ P1 fixtures (ManVFatCalender.__init__ team location) w1
    = (w1', Ok cal1) ->
  @ManVFatCalendarExporter.events_loop _ P2 fixtures (ManVFatCalender.__init__ team location) w2
    = (w2', Ok cal2) ->
  Icalendar.properties (ManVFatCalender.cal cal1)
    = Icalendar.properties (ManVFatCalender.cal cal2) /\
  List.map (delete "UID") (Icalendar.subcomponents (ManVFatCalender.cal cal1))
  = List.map (delete "UID") (Icalendar.subcomponents (ManVFatCalender.cal cal2)).
Proof.
  intros H1 H2. split.
  - apply events_loop_ok in H1 as (_ & _ & -> & _).
    apply events_loop_ok in H2 as (_ & _ & -> & _). done.
  - apply events_loop_indexed in H1 as (e1 & HF1 & ->).
    apply events_loop_indexed in H2 as (e2 & HF2 & ->).
    rewrite (Forall2_fixture_event_functional _ _ _ HF1 HF2). simpl.
    apply list_eq. intros i. rewrite !list_lookup_fmap, !list_lookup_imap.
    destruct (e2 !! i); simpl; [|done]. by rewrite !delete_uid_stamped.
Qed.

Section Paths.

Lemma last_char_app x c :
  String.substring (String.length (x ++ String c "") - 1) 1 (x ++ String c "") = String c "".
Proof.
  induction x as [|a x IH]; [done|].
  rewrite append_cons. 
  assert (Hlen : String.length (String a (x ++ String c "")) - 1
                 = S (String.length (x ++ String c "") - 1)).
  { simpl. destruct x; simpl; lia. }
  rewrite Hlen. simpl. exact IH.
Qed.

Lemma app_not_nil x c : x ++ String c "" <> "".
Proof. by destruct x. Qed.

(** Joining a directory that does not end in a slash with a relative name. *)
Lemma path_join_relative a b :
  a <> "" -> String.substring (String.length a - 1) 1 a <> "/" ->
  String.prefix "/" b = false ->
  path_join a b = a ++ "/" ++ b.
Proof.
  intros Ha Hl Hb. unfold path_join. rewrite Hb.
  destruct (String.eqb_spec a ""); [done|].
  destruct (String.eqb_spec (String.substring (String.length a - 1) 1 a) "/"); done.
Qed.
End Paths.

Section MoreCalendar.
Context {fs : Type} `{Platform fs}.
Import ManVFatCalendarExporter.

Lemma init_properties team location :
  Icalendar.properties (ManVFatCalender.cal (ManVFatCalender.__init__ team location))
  = <["VERSION" := Icalendar.vText "2.0"]>
      (<["PRODID" := Icalendar.vText
                       ("-//Man V Fat Calender Oldbury - " ++ team ++ "//manvfatfootball.org//")]> ∅).
Proof.
  unfold ManVFatCalender.__init__, Icalendar.add. simpl.
  change (Icalendar.upper "prodid") with "PRODID".
  change (Icalendar.upper "version") with "VERSION".
  by simplify_map_eq.
Qed.

Lemma events_loop_length fixtures cal w w' cal' :
  events_loop fixtures cal w = (w', Ok cal') ->
  length (Icalendar.subcomponents (ManVFatCalender.cal cal'))
  = length (Icalendar.subcomponents (ManVFatCalender.cal cal)) + length fixtures.
Proof.
  intros (_ & _ & _ & events & -> & HF)%events_loop_ok.
  rewrite length_app. by rewrite (Forall2_length _ _ _ HF).
Qed.
End MoreCalendar.

(** X11. The event loop never fails on fixtures that came out of the filter:
    it ends normally, appends one event per fixture and leaves the file
    system as it was. *)
Theorem parsed_fixtures_always_give_events {fs : Type} {P : Platform fs}
    (self_team : string) (raws : list (gmap string (option string)))
    (matches : list MatchFixture.t) (cal : ManVFatCalender.t) (w : world fs) :
  ManVFatConnector.team_fixtures_loop self_team raws [] = Ok matches ->
  exists w' cal',
    ManVFatCalendarExporter.events_loop matches cal w = (w', Ok cal')
    /\ disk w' = disk w
    /\ length (Icalendar.subcomponents (ManVFatCalender.cal cal'))
       = length (Icalendar.subcomponents (ManVFatCalender.cal cal)) + length matches.
Proof.
  intros Hloop%team_fixtures_loop_events.
  destruct (events_loop_total matches cal w Hloop) as (w' & cal' & E).
  exists w', cal'. split; [done|]. split.
  - pose proof (events_loop_disk matches cal w) as Hd. by rewrite E in Hd.
  - eauto using events_loop_length.
Qed.

(** X12. With no export path set, an export whose events can all be built
    raises [TypeError] after the loop: the identifiers are drawn, the file
    system is untouched. *)
Theorem unset_export_path_raises_before_any_write {fs : Type} {P : Platform fs}
    (self : ManVFatCalendarExporter.t) (filename : string) (w : world fs) :
  Forall (fun f => is_ok (ManVFatCalendarExporter.fixture_event f) = true)
         (ManVFatCalendarExporter.fixtures self) ->
  ManVFatCalendarExporter.export_path self = None ->
  ManVFatCalendarExporter.export_to_ical self filename w
  = (mk_world (disk w) (drawn w + length (ManVFatCalendarExporter.fixtures self)),
     Raise TypeError).
Proof.
  intros HF Hp. rewrite export_to_ical_eq.
  destruct (events_loop_total _ (ManVFatCalender.__init__ (ManVFatCalendarExporter.team self)
              (ManVFatCalendarExporter.location self)) w HF) as (w' & cal' & E).
  rewrite E, Hp. by apply events_loop_ok in E as (-> & _).
Qed.

(** X13. An export that ends normally, with an export path [p] that is not
    empty and does not end in a slash and a file name that does not start
    with one, has written to "p/MyCalendar/{filename}" the serialisation of
    a calendar of version 2.0, whose product id embeds the team name, with
    one event per fixture. *)
Theorem export_writes_under_MyCalendar {fs : Type} {P : Platform fs}
    (self : ManVFatCalendarExporter.t) (filename p : string) (w w' : world fs) :
  ManVFatCalendarExporter.export_to_ical self filename w = (w', Ok tt) ->
  ManVFatCalendarExporter.export_path self = Some p ->
  p <> "" -> String.substring (String.length p - 1) 1 p <> "/" ->
  String.prefix "/" filename = false ->
  exists cal d,
    write_binary d (p ++ "/MyCalendar/" ++ filename) (to_ical cal) = (disk w', Ok tt) /\
    Icalendar.properties cal
    = <["VERSION" := Icalendar.vText "2.0"]>
        (<["PRODID" := Icalendar.vText
             ("-//Man V Fat Calender Oldbury - " ++ ManVFatCalendarExporter.team self
              ++ "//manvfatfootball.org//")]> ∅) /\
    length (Icalendar.subcomponents cal) = length (ManVFatCalendarExporter.fixtures self).
Proof.
  intros (w1 & cal & p' & d & Hev & Hp' & Hw)%export_to_ical_ok Hp Hne Hlast Hrel.
  rewrite Hp in Hp'. injection Hp' as <-.
  exists (ManVFatCalender.cal cal), d. split; [|split].
  - rewrite <- Hw. f_equal.
    rewrite (path_join_relative p "MyCalendar") by done.
    change (p ++ "/" ++ "MyCalendar") with (p ++ "/MyCalenda" ++ "r").
    rewrite <- (string_app_assoc p "/MyCalenda" "r").
    rewrite path_join_relative; [|apply app_not_nil|by rewrite last_char_app|done].
    by rewrite !string_app_assoc.
  - apply events_loop_ok in Hev as (_ & _ & -> & _). apply init_properties.
  - by apply events_loop_length in Hev.
Qed.

(** ** A whole run *)

(** X16. Every run ends in one of five ways: a setting is missing
    ([KeyError], nothing done); the fetch, the extraction or the parsing
    raised (that exception, nothing done); the export path is not set
    ([TypeError], file system untouched); [makedirs] raised; or the calendar
    with one event per fixture of the team was handed to the write, whose
    result is the result of the run. Building the events never fails. *)
Theorem outcomes_of_a_run {fs : Type} {P : Platform fs}
    (environ : gmap string string) (w w' : world fs) (r : result unit) :
  ManVFatCalendarExporter.main environ w = (w', r) -> run_outcome environ w w' r.
Proof.
  unfold run_outcome, ManVFatCalendarExporter.main, ManVFatConnector.__init__, getitem, io_bind, io_lift, bind.
  destruct (environ !! "URL") as [url|]; [|intros [= <- <-]; left; auto].
  destruct (environ !! "TEAM") as [team|]; [|intros [= <- <-]; left; auto].
  intros Hm. right. exists url, team. split; [done|]. split; [done|]. revert Hm.
  destruct (ManVFatConnector.get_team_fixtures _) as [matches|e] eqn:Eg;
    [|intros [= <- <-]; left; eauto].
  intros Hm. right. exists matches. split; [done|]. revert Hm.
  assert (Hev : Forall (fun f => is_ok (ManVFatCalendarExporter.fixture_event f) = true) matches).
  { unfold ManVFatConnector.get_team_fixtures, bind in Eg.
    destruct (ManVFatConnector.__get_fixtures _); [|discriminate].
    eauto using team_fixtures_loop_events. }
  rewrite export_to_ical_eq. unfold ManVFatCalendarExporter.__init__. simpl.
  destruct (events_loop_total matches (ManVFatCalender.__init__ team ManVFatCalendarExporter.venue)
              w Hev) as (w1 & cal & E).
  rewrite E. pose proof (events_loop_length _ _ _ _ _ E) as Hlen. simpl in Hlen.
  apply events_loop_ok in E as (-> & _).
  destruct (environ !! "ExportPath") as [p|].
  2:{ intros [= <- <-]. split; [done|]. left. done. }
  unfold ManVFatCalendarExporter.ensure_directory. simpl.
  destruct (path_exists (disk w) (path_join p "MyCalendar")) eqn:Ex.
  - unfold ManVFatCalender.export_calendar. simpl.
    destruct (write_binary _ _ _) as [d2 r2] eqn:Ew. intros [= <- <-]. split; [done|].
    right. exists p. split; [done|]. right. exists (disk w), (ManVFatCalender.cal cal).
    split; [auto|]. split; [done|]. done.
  - destruct (makedirs _ _) as [d1 [[]|e]] eqn:Em.
    + unfold ManVFatCalender.export_calendar. simpl.
      destruct (write_binary _ _ _) as [d2 r2] eqn:Ew. intros [= <- <-]. split; [done|].
      right. exists p. split; [done|]. right. exists d1, (ManVFatCalender.cal cal).
      split; [auto|]. split; [done|]. done.
    + intros [= <- <-]. split; [done|]. right. exists p. split; [done|]. left.
      split; [done|]. eauto.
Qed.

(** ** The properties at sample inputs *)

Lemma raw_well_keyed team opponent date time :
  well_keyed (Example.raw team opponent date time).
Proof. unfold well_keyed, Example.raw. repeat split; by simplify_map_eq. Qed.

Lemma undated_well_keyed team opponent : well_keyed (Samples.undated team opponent).
Proof. unfold well_keyed, Samples.undated. repeat split; by simplify_map_eq. Qed.

Lemma extraction_gives_one_record_per_item_witness :
  Forall2 record_of (Bs4.find_all "li" [] (Samples.container [Example.li]))
          [Example.raw "Oldbury" "Rivals FC" "Tuesday 14 May" "19:45"]
  /\ Forall (fun r => dom r = ({["team"; "date"; "opponent"; "time"]} : gset string))
            [Example.raw "Oldbury" "Rivals FC" "Tuesday 14 May" "19:45"].
Proof.
  apply (extraction_gives_one_record_per_item Example.soup); vm_compute; reflexivity.
Defined.

Lemma fewer_than_two_candidates_reads_the_block_witness :
  Example.raw "Oldbury" "Rivals FC" "Tuesday 14 May" "19:45" !! "time"
  = Some (Bs4.string Samples.short_schedule).
Proof.
  apply (fewer_than_two_candidates_reads_the_block Samples.short_li).
  - vm_compute; reflexivity.
  - vm_compute. lia.
  - vm_compute; reflexivity.
Defined.

Lemma fetch_and_filter_errors_witness :
  @requests_get _ (Recording.rejecting 200) "u" ManVFatConnector.get_request_headers
    = Raise ParserRejectedMarkup
  \/ ParserRejectedMarkup = HTTPError
  \/ (exists resp,
        @requests_get _ (Recording.rejecting 200) "u" ManVFatConnector.get_request_headers
          = Ok resp
        /\ @html_parser _ (Recording.rejecting 200) (text resp) = Raise ParserRejectedMarkup)
  \/ ParserRejectedMarkup = AttributeError \/ ParserRejectedMarkup = ValueError.
Proof.
  apply (@fetch_and_filter_errors _ (Recording.rejecting 200)
           (ManVFatConnector.mk "u" "Oldbury")).
  vm_compute; reflexivity.
Defined.

Lemma filter_ignores_other_records_witness :
  ManVFatConnector.team_fixtures_loop "Oldbury"
    [Example.raw "Oldbury" "Rivals FC" "Tuesday 14 May" "19:45";
     Samples.undated "Albion" "Rivals FC"] []
  = ManVFatConnector.team_fixtures_loop "Oldbury"
      (List.filter (for_team "Oldbury")
         [Example.raw "Oldbury" "Rivals FC" "Tuesday 14 May" "19:45";
          Samples.undated "Albion" "Rivals FC"]) [].
Proof.
  apply filter_ignores_other_records.
  repeat constructor; auto using raw_well_keyed, undated_well_keyed.
Defined.

Lemma unparseable_team_record_aborts_filter_witness :
  ManVFatConnector.team_fixtures_loop "Oldbury"
    [Example.raw "Oldbury" "Rivals FC" "Tuesday 14 May" "19:45";
     Samples.undated "Albion" "Oldbury"] []
  = Raise ValueError.
Proof.
  apply (unparseable_team_record_aborts_filter "Oldbury" _ (Samples.undated "Albion" "Oldbury")
           None (Some "19:45") ValueError).
  - repeat constructor; auto using raw_well_keyed, undated_well_keyed.
  - apply list_elem_of_In. right. left. reflexivity.
  - vm_compute; reflexivity.
  - vm_compute; reflexivity.
  - vm_compute; reflexivity.
  - vm_compute; reflexivity.
Defined.

Lemma titles_begin_with_the_team_witness :
  Forall (fun f => exists other : option string,
            MatchFixture.get_title f = "Oldbury" ++ " vs " ++ py_str other
            /\ (MatchFixture.home f = true /\ MatchFixture.team f = Some "Oldbury"
                                          /\ other = MatchFixture.opponent f
                \/ MatchFixture.home f = false /\ MatchFixture.opponent f = Some "Oldbury"
                                             /\ other = MatchFixture.team f))
         Samples.matches.
Proof.
  apply (titles_begin_with_the_team "Oldbury" Samples.records). vm_compute; reflexivity.
Defined.

Lemma missing_text_is_rejected_witness :
  MatchFixture.__parse_datetime (Some "Tuesday 14 May") None = Raise ValueError.
Proof. apply missing_text_is_rejected. right. reflexivity. Defined.

Lemma parsed_fields_are_valid_witness :
  (1 <= Datetime.month Example.start <= 12)%Z /\
  (1 <= Datetime.day Example.start
   <= Datetime._days_in_month 1900 (Datetime.month Example.start))%Z /\
  (0 <= Datetime.hour Example.start <= 23)%Z /\
  (0 <= Datetime.minute Example.start <= 59)%Z /\
  Datetime.second Example.start = 0%Z /\ Datetime.microsecond Example.start = 0%Z /\
  ~ (Datetime.month Example.start = 2%Z /\ Datetime.day Example.start = 29%Z).
Proof.
  apply (parsed_fields_are_valid (Some "Tuesday 14 May") (Some "19:45")).
  vm_compute; reflexivity.
Defined.

Lemma parsing_ignores_letter_case_witness :
  MatchFixture.__parse_datetime (Some "TUESDAY 14 MAY") (Some "19:45")
  = MatchFixture.__parse_datetime (Some "Tuesday 14 May") (Some "19:45").
Proof. apply parsing_ignores_letter_case; vm_compute; reflexivity. Defined.

Lemma parsed_fixtures_always_give_events_witness :
  exists w' cal',
    @ManVFatCalendarExporter.events_loop _ (Recording.platform 200 Example.soup)
      Samples.matches (ManVFatCalender.__init__ "Oldbury" ManVFatCalendarExporter.venue)
      (mk_world [] 0) = (w', Ok cal')
    /\ disk w' = []
    /\ length (Icalendar.subcomponents (ManVFatCalender.cal cal'))
       = length (Icalendar.subcomponents
                   (ManVFatCalender.cal
                      (ManVFatCalender.__init__ "Oldbury" ManVFatCalendarExporter.venue)))
         + length Samples.matches.
Proof.
  apply (@parsed_fixtures_always_give_events _ (Recording.platform 200 Example.soup)
           "Oldbury" Samples.records).
  vm_compute; reflexivity.
Defined.

Lemma unset_export_path_raises_before_any_write_witness :
  @ManVFatCalendarExporter.export_to_ical _ (Recording.platform 200 Example.soup)
    (Samples.exporter None) "MyCalendar.ics" (mk_world [] 0)
  = (mk_world [] (0 + length (ManVFatCalendarExporter.fixtures (Samples.exporter None))),
     Raise TypeError).
Proof.
  apply (@unset_export_path_raises_before_any_write _ (Recording.platform 200 Example.soup)
           (Samples.exporter None)).
  - repeat constructor.
  - reflexivity.
Defined.

Lemma export_writes_under_MyCalendar_witness :
  exists cal d,
    @write_binary _ (Recording.platform 200 Example.soup) d
      ("out" ++ "/MyCalendar/" ++ "MyCalendar.ics")
      (@to_ical _ (Recording.platform 200 Example.soup) cal)
    = ([Recording.Makedirs "out/MyCalendar";
        Recording.Write "out/MyCalendar/MyCalendar.ics" "Oldbury vs Rivals FC 19:45-20:15;"],
       Ok tt) /\
    Icalendar.properties cal
    = <["VERSION" := Icalendar.vText "2.0"]>
        (<["PRODID" := Icalendar.vText
             ("-//Man V Fat Calender Oldbury - "
              ++ ManVFatCalendarExporter.team (Samples.exporter (Some "out"))
              ++ "//manvfatfootball.org//")]> ∅) /\
    length (Icalendar.subcomponents cal)
    = length (ManVFatCalendarExporter.fixtures (Samples.exporter (Some "out"))).
Proof.
  apply (@export_writes_under_MyCalendar _ (Recording.platform 200 Example.soup)
           (Samples.exporter (Some "out")) "MyCalendar.ics" "out" (mk_world [] 0)
           (mk_world [Recording.Makedirs "out/MyCalendar";
                      Recording.Write "out/MyCalendar/MyCalendar.ics"
                        "Oldbury vs Rivals FC 19:45-20:15;"] 1)).
  - vm_compute; reflexivity.
  - reflexivity.
  - discriminate.
  - vm_compute. discriminate.
  - reflexivity.
Defined.

Lemma identifiers_follow_the_draw_witness :
  drawn (mk_world (@nil Recording.call) 8) = 7 + length [Example.fixture] /\
  forall i event,
    Icalendar.subcomponents (ManVFatCalender.cal (Samples.calendar_at 7)) !! i = Some event ->
    event !! "UID"
    = Some (Icalendar.PyStr (@uuid4 _ (Recording.platform 200 Example.soup) (7 + i))).
Proof.
  apply (@identifiers_follow_the_draw _ (Recording.platform 200 Example.soup)
           "Oldbury" ManVFatCalendarExporter.venue [Example.fixture] (mk_world [] 7)).
  vm_compute; reflexivity.
Defined.

Lemma runs_differ_only_in_identifiers_witness :
  Icalendar.properties (ManVFatCalender.cal (Samples.calendar_at 0))
    = Icalendar.properties (ManVFatCalender.cal (Samples.calendar_at 7)) /\
  List.map (delete "UID") (Icalendar.subcomponents (ManVFatCalender.cal (Samples.calendar_at 0)))
  = List.map (delete "UID")
      (Icalendar.subcomponents (ManVFatCalender.cal (Samples.calendar_at 7))).
Proof.
  apply (@runs_differ_only_in_identifiers _ _ (Recording.platform 200 Example.soup)
           (Recording.platform 404 Example.soup) "Oldbury" ManVFatCalendarExporter.venue
           [Example.fixture] (mk_world [] 0) (mk_world [] 1) (mk_world [] 7) (mk_world [] 8));
    vm_compute; reflexivity.
Defined.

Lemma outcomes_of_a_run_witness :
  @run_outcome _ (Recording.platform 200 Example.soup) Example.environ (mk_world [] 0)
    (mk_world [Recording.Makedirs "out/MyCalendar";
               Recording.Write "out/MyCalendar/MyCalendar.ics"
                 "Oldbury vs Rivals FC 19:45-20:15;"] 1)
    (Ok tt).
Proof.
  apply (@outcomes_of_a_run _ (Recording.platform 200 Example.soup)).
  vm_compute; reflexivity.
Defined.
